(** * The agent Helm config data source of the HCS provider

    A shallow embedding of
    [internal/provider/data_source_agent_helm_config.go]:
    the template [helmConfigTemplate], the renderer [generateHelmConfig]
    and the read function [dataSourceAgentHelmConfigRead].

    Go strings are byte sequences; they are modelled as [string], whose
    characters are the bytes.  Runes and integers are [Z]. *)

From Stdlib Require Import ZArith Ascii Lia.
From stdpp Require Import gmap strings.

Local Open Scope Z_scope.
#[local] Arguments String.append !_ _ / : simpl nomatch.

(** ** Bytes *)

Definition byteZ (c : ascii) : Z := Z.of_N (N_of_ascii c).
Definition byte_of_Z (z : Z) : ascii := ascii_of_N (Z.to_N (z mod 256)).

(** The double quote, the single quote and the backslash. *)
Definition dquote : ascii := "034"%char.
Definition squote : ascii := "039"%char.
Definition backslash : ascii := "092"%char.

Definition str1 (c : ascii) : string := String c EmptyString.

(** [lowerhex] of strconv: the digit for a value in 0..15. *)
Definition lowerhex (d : Z) : ascii :=
  match String.get (Z.to_nat d) "0123456789abcdef" with
  | Some c => c
  | None => "0"%char
  end.

(** ** unicode/utf8 *)

Definition RuneError : Z := 0xFFFD.
Definition RuneSelf : Z := 0x80.
Definition MaxRune : Z := 0x10FFFF.
Definition surrogateMin : Z := 0xD800.
Definition surrogateMax : Z := 0xDFFF.

(** The [first] table of utf8: information about the first byte of an
    encoding.  [0xF0] is ASCII, [0xF1] is invalid, otherwise the low
    three bits give the size and the high four the accept range. *)
Definition utf8_first (b : Z) : Z :=
  if b <? 0x80 then 0xF0
  else if b <? 0xC2 then 0xF1
  else if b <? 0xE0 then 0x02
  else if b =? 0xE0 then 0x13
  else if b <? 0xED then 0x03
  else if b =? 0xED then 0x23
  else if b <? 0xF0 then 0x03
  else if b =? 0xF0 then 0x34
  else if b <? 0xF4 then 0x04
  else if b =? 0xF4 then 0x44
  else 0xF1.

(** [acceptRanges]: the bounds of the second byte. *)
Definition utf8_acceptRanges (i : Z) : Z * Z :=
  if i =? 0 then (0x80, 0xBF)
  else if i =? 1 then (0xA0, 0xBF)
  else if i =? 2 then (0x80, 0x9F)
  else if i =? 3 then (0x90, 0xBF)
  else if i =? 4 then (0x80, 0x8F)
  else (0, 0).

Definition is_cont (b : Z) : bool := (0x80 <=? b) && (b <=? 0xBF).

(** [utf8.DecodeRuneInString]: the first rune of [s] and its width in
    bytes; [(RuneError, 1)] on an invalid encoding. *)
Definition utf8_DecodeRuneInString (s : string) : Z * nat :=
  match s with
  | EmptyString => (RuneError, 0%nat)
  | String c0 t0 =>
    let s0 := byteZ c0 in
    let x := utf8_first s0 in
    if 0xF0 <=? x then ((if x =? 0xF1 then RuneError else s0), 1%nat)
    else
      let sz := Z.land x 7 in
      let accept := utf8_acceptRanges (Z.shiftr x 4) in
      if Z.of_nat (String.length s) <? sz then (RuneError, 1%nat)
      else match t0 with
      | EmptyString => (RuneError, 1%nat)
      | String c1 t1 =>
        let s1 := byteZ c1 in
        if (s1 <? fst accept) || (snd accept <? s1) then (RuneError, 1%nat)
        else if sz <=? 2 then
          (Z.lor (Z.shiftl (Z.land s0 0x1F) 6) (Z.land s1 0x3F), 2%nat)
        else match t1 with
        | EmptyString => (RuneError, 1%nat)
        | String c2 t2 =>
          let s2 := byteZ c2 in
          if negb (is_cont s2) then (RuneError, 1%nat)
          else if sz <=? 3 then
            (Z.lor (Z.lor (Z.shiftl (Z.land s0 0x0F) 12)
                          (Z.shiftl (Z.land s1 0x3F) 6))
                   (Z.land s2 0x3F), 3%nat)
          else match t2 with
          | EmptyString => (RuneError, 1%nat)
          | String c3 _ =>
            let s3 := byteZ c3 in
            if negb (is_cont s3) then (RuneError, 1%nat)
            else
              (Z.lor (Z.lor (Z.lor (Z.shiftl (Z.land s0 0x07) 18)
                                   (Z.shiftl (Z.land s1 0x3F) 12))
                            (Z.shiftl (Z.land s2 0x3F) 6))
                     (Z.land s3 0x3F), 4%nat)
          end
        end
      end
  end.

(** [utf8.EncodeRune]: the bytes of a rune; a rune out of range or a
    surrogate is written as [RuneError]. *)
Definition utf8_encode3 (r : Z) : string :=
  String (byte_of_Z (Z.lor 0xE0 (Z.shiftr r 12)))
  (String (byte_of_Z (Z.lor 0x80 (Z.land (Z.shiftr r 6) 0x3F)))
  (String (byte_of_Z (Z.lor 0x80 (Z.land r 0x3F))) EmptyString)).

Definition utf8_EncodeRune (r : Z) : string :=
  if (0 <=? r) && (r <=? 0x7F) then str1 (byte_of_Z r)
  else if (0 <=? r) && (r <=? 0x7FF) then
    String (byte_of_Z (Z.lor 0xC0 (Z.shiftr r 6)))
    (String (byte_of_Z (Z.lor 0x80 (Z.land r 0x3F))) EmptyString)
  else if (r <? 0) || (MaxRune <? r)
          || ((surrogateMin <=? r) && (r <=? surrogateMax)) then
    utf8_encode3 RuneError
  else if r <=? 0xFFFF then utf8_encode3 r
  else
    String (byte_of_Z (Z.lor 0xF0 (Z.shiftr r 18)))
    (String (byte_of_Z (Z.lor 0x80 (Z.land (Z.shiftr r 12) 0x3F)))
    (String (byte_of_Z (Z.lor 0x80 (Z.land (Z.shiftr r 6) 0x3F)))
    (String (byte_of_Z (Z.lor 0x80 (Z.land r 0x3F))) EmptyString))).

Definition utf8_ValidRune (r : Z) : bool :=
  ((0 <=? r) && (r <? surrogateMin))
  || ((surrogateMax <? r) && (r <=? MaxRune)).

(** The rune at the head of a non-empty string, as the loops of strconv
    and [range] take it: a byte below [RuneSelf] is its own rune. *)
Definition head_rune (c : ascii) (s : string) : Z * nat :=
  if byteZ c <? RuneSelf then (byteZ c, 1%nat)
  else utf8_DecodeRuneInString s.

(** ** The Go library functions the data source calls

    The Unicode tables of the Go library are not part of the provider:
    what they decide is taken as a parameter, and the code around them
    is modelled as written. *)

(** A Go [error] value, as far as this program observes it: the text of
    [Error()], which [%v] prints, and the text [%+v] prints. *)
Record error := mkError { error_Error : string; error_plusv : string }.

(** [ConsulConfig]: the Consul config returned on the GetConfig
    response. *)
Record ConsulConfig := mkConsulConfig {
  Datacenter : string;
  RetryJoin : list string
}.

(** An operand of a formatting call. *)
Inductive arg :=
| AString (s : string)
| AStrings (l : list string)
| AError (e : error).

Section HelmConfig.

(** [strconv.IsPrint] on the runes above [0xFF], which it looks up in
    its tables. *)
Variable isPrint_table : Z -> bool.

(** [unicode.To(unicode.LowerCase, r)], the lower case of a rune above
    [unicode.MaxASCII], from the case tables. *)
Variable unicode_To_LowerCase : Z -> Z.

(** What [fmt.Sprintf] returns on a call outside the fragment modelled
    below (flags, widths, other verbs, missing or extra operands). *)
Variable fmt_Sprintf_other : string -> list arg -> string.

(** [json.Unmarshal] into a [ConsulConfig]: the decoded value and the
    error, if any. *)
Variable json_Unmarshal : string -> ConsulConfig * option error.

(** The error of the SDK's field writer for an attribute that is not in
    the schema. *)
Variable schema_Set_error : string -> error.

(** *** strconv *)

Definition strconv_IsPrint (r : Z) : bool :=
  if r <=? 0xFF then
    if (0x20 <=? r) && (r <=? 0x7E) then true
    else if (0xA1 <=? r) && (r <=? 0xFF) then negb (r =? 0xAD)
    else false
  else isPrint_table r.

Definition hex2 (b : Z) : string :=
  String (lowerhex (Z.shiftr b 4)) (str1 (lowerhex (Z.land b 0xF))).

Definition hex_digits (r : Z) (shifts : list Z) : string :=
  fold_right (fun s acc => String (lowerhex (Z.land (Z.shiftr r s) 0xF)) acc)
             EmptyString shifts.

(** [appendEscapedRune] with the double quote as [quote],
    [ASCIIonly = false] and [graphicOnly = false], as [strconv.Quote]
    calls it. *)
Definition appendEscapedRune (r : Z) : string :=
  if (r =? byteZ dquote) || (r =? byteZ backslash) then
    String backslash (str1 (byte_of_Z r))
  else if strconv_IsPrint r then utf8_EncodeRune r
  else if r =? 7 then "\a"
  else if r =? 8 then "\b"
  else if r =? 12 then "\f"
  else if r =? 10 then "\n"
  else if r =? 13 then "\r"
  else if r =? 9 then "\t"
  else if r =? 11 then "\v"
  else if (r <? 0x20) || (r =? 0x7F) then "\x" +:+ hex2 (r mod 256)
  else if negb (utf8_ValidRune r) then "\u" +:+ hex_digits 0xFFFD [12; 8; 4; 0]
  else if r <? 0x10000 then "\u" +:+ hex_digits r [12; 8; 4; 0]
  else "\U" +:+ hex_digits r [28; 24; 20; 16; 12; 8; 4; 0].

(** The loop of [appendQuotedWith]: [skip] counts the bytes of the
    current rune that are still to be passed over. *)
Fixpoint quoteLoop (skip : nat) (s : string) : string :=
  match s with
  | EmptyString => EmptyString
  | String c t =>
    match skip with
    | S k => quoteLoop k t
    | O =>
      let (r, width) := head_rune c s in
      (if (width =? 1)%nat && (r =? RuneError) then "\x" +:+ hex2 (byteZ c)
       else appendEscapedRune r)
      +:+ quoteLoop (width - 1) t
    end
  end.

(** [strconv.Quote]. *)
Definition strconv_Quote (s : string) : string :=
  String dquote (quoteLoop 0 s +:+ str1 dquote).

(** *** unicode and strings *)

Definition unicode_ToLower (r : Z) : Z :=
  if r <=? 0x7F then
    if (byteZ "A" <=? r) && (r <=? byteZ "Z") then r + (byteZ "a" - byteZ "A")
    else r
  else unicode_To_LowerCase r.

(** [strings.Map]: every rune of [s] (an invalid byte reads as
    [RuneError]) is replaced by the encoding of its image, and dropped
    when the image is negative. *)
Fixpoint mapLoop (mapping : Z -> Z) (skip : nat) (s : string) : string :=
  match s with
  | EmptyString => EmptyString
  | String c t =>
    match skip with
    | S k => mapLoop mapping k t
    | O =>
      let (c0, width) := head_rune c s in
      let r := mapping c0 in
      (if 0 <=? r then utf8_EncodeRune r else EmptyString)
      +:+ mapLoop mapping (width - 1) t
    end
  end.

Definition strings_Map (mapping : Z -> Z) (s : string) : string :=
  mapLoop mapping 0 s.

Fixpoint isASCII (s : string) : bool :=
  match s with
  | EmptyString => true
  | String c t => (byteZ c <? RuneSelf) && isASCII t
  end.

Definition lowerByte (c : ascii) : ascii :=
  if (byteZ "A" <=? byteZ c) && (byteZ c <=? byteZ "Z")
  then byte_of_Z (byteZ c + (byteZ "a" - byteZ "A"))
  else c.

Fixpoint lowerASCII (s : string) : string :=
  match s with
  | EmptyString => EmptyString
  | String c t => String (lowerByte c) (lowerASCII t)
  end.

(** [strings.ToLower]: byte by byte on an ASCII string, through
    [strings.Map] and [unicode.ToLower] otherwise. *)
Definition strings_ToLower (s : string) : string :=
  if isASCII s then lowerASCII s
  else strings_Map unicode_ToLower s.

(** [strings.Replace] for a non-empty [old]: the leftmost occurrences,
    not overlapping, at most [n] of them, all of them when [n < 0]. *)
Fixpoint replaceLoop (old new : string) (n : Z) (skip : nat) (s : string)
  : string :=
  match s with
  | EmptyString => EmptyString
  | String c t =>
    match skip with
    | S k => replaceLoop old new n k t
    | O =>
      if n =? 0 then s
      else if String.prefix old s
      then new +:+ replaceLoop old new (n - 1) (String.length old - 1) t
      else String c (replaceLoop old new n 0 t)
    end
  end.

(** The same for the empty [old], which matches before the first rune
    and after every rune. *)
Fixpoint insertLoop (new : string) (n : Z) (skip : nat) (s : string)
  : string :=
  match s with
  | EmptyString => if n =? 0 then EmptyString else new
  | String c t =>
    match skip with
    | S k => String c (insertLoop new n k t)
    | O =>
      if n =? 0 then s
      else new +:+ String c
             (insertLoop new (n - 1) (snd (utf8_DecodeRuneInString s) - 1) t)
    end
  end.

Definition strings_Replace (s old new : string) (n : Z) : string :=
  if String.eqb old new || (n =? 0) then s
  else match old with
       | EmptyString => insertLoop new n 0 s
       | String _ _ => replaceLoop old new n 0 s
       end.

(** [strings.Contains]. *)
Fixpoint strings_Contains (s substr : string) : bool :=
  String.prefix substr s
  || match s with
     | EmptyString => false
     | String _ t => strings_Contains t substr
     end.

Fixpoint runeCountLoop (skip : nat) (s : string) : Z :=
  match s with
  | EmptyString => 0
  | String c t =>
    match skip with
    | S k => runeCountLoop k t
    | O => 1 + runeCountLoop (snd (head_rune c s) - 1) t
    end
  end.

Fixpoint countLoop (substr : string) (skip : nat) (s : string) : Z :=
  match s with
  | EmptyString => 0
  | String _ t =>
    match skip with
    | S k => countLoop substr k t
    | O =>
      if String.prefix substr s
      then 1 + countLoop substr (String.length substr - 1) t
      else countLoop substr 0 t
    end
  end.

(** [strings.Count]: the occurrences of [substr] in [s] that do not
    overlap; one more than the runes of [s] for the empty [substr]. *)
Definition strings_Count (s substr : string) : Z :=
  match substr with
  | EmptyString => runeCountLoop 0 s + 1
  | String _ _ => countLoop substr 0 s
  end.

(** *** fmt

    The fragment of [fmt.Sprintf] the provider uses: literal text,
    [%%], and the verbs [%s], [%q], [%v] and [%+v] on strings, slices
    of strings and errors, with one operand for each verb. *)

Inductive directive :=
| Text (c : ascii)
| Verb (plus : bool) (verb : ascii).

Definition is_verb (c : ascii) : bool :=
  Ascii.eqb c "s" || Ascii.eqb c "q" || Ascii.eqb c "v".

Fixpoint parseFormat (format : string) : option (list directive) :=
  match format with
  | EmptyString => Some []
  | String c rest =>
    if Ascii.eqb c "%" then
      match rest with
      | EmptyString => None
      | String c1 rest1 =>
        if Ascii.eqb c1 "%" then cons (Text "%") <$> parseFormat rest1
        else if Ascii.eqb c1 "+" then
          match rest1 with
          | EmptyString => None
          | String c2 rest2 =>
            if is_verb c2 then cons (Verb true c2) <$> parseFormat rest2
            else None
          end
        else if is_verb c1 then cons (Verb false c1) <$> parseFormat rest1
        else None
      end
    else cons (Text c) <$> parseFormat rest
  end.

(** [fmtString]: a string under a verb.  [%+q] quotes to ASCII and is
    left out, as are the verbs other than [v], [s] and [q]. *)
Definition fmtString (plus : bool) (verb : ascii) (s : string)
  : option string :=
  if Ascii.eqb verb "v" then Some s
  else if Ascii.eqb verb "s" then Some s
  else if Ascii.eqb verb "q"
  then (if plus then None else Some (strconv_Quote s))
  else None.

Fixpoint join (sep : string) (l : list string) : string :=
  match l with
  | [] => EmptyString
  | [x] => x
  | x :: l' => x +:+ sep +:+ join sep l'
  end.

(** [printArg]: a slice is printed between brackets, its elements under
    the same verb and separated by one space; an error only under
    [%v] and [%+v]. *)
Definition printArg (plus : bool) (verb : ascii) (a : arg) : option string :=
  match a with
  | AString s => fmtString plus verb s
  | AStrings l =>
    elems ← mapM (fmtString plus verb) l;
    Some ("[" +:+ join " " elems +:+ "]")
  | AError e =>
    if Ascii.eqb verb "v"
    then Some (if plus then error_plusv e else error_Error e)
    else None
  end.

(** What a call writes: literal bytes and the texts put in the place of
    the verbs. *)
Inductive piece :=
| Lit (c : ascii)
| Subst (text : string).

Fixpoint doPrintf (ds : list directive) (args : list arg)
  : option (list piece) :=
  match ds with
  | [] => match args with [] => Some [] | _ :: _ => None end
  | Text c :: ds' => cons (Lit c) <$> doPrintf ds' args
  | Verb plus verb :: ds' =>
    match args with
    | [] => None
    | a :: args' =>
      text ← printArg plus verb a;
      cons (Subst text) <$> doPrintf ds' args'
    end
  end.

Fixpoint flatten (ps : list piece) : string :=
  match ps with
  | [] => EmptyString
  | Lit c :: ps' => String c (flatten ps')
  | Subst text :: ps' => text +:+ flatten ps'
  end.

Definition printed (format : string) (args : list arg)
  : option (list piece) :=
  ds ← parseFormat format; doPrintf ds args.

Definition fmt_Sprintf (format : string) (args : list arg) : string :=
  match printed format args with
  | Some ps => flatten ps
  | None => fmt_Sprintf_other format args
  end.

(** The substitution sites of a call: for every verb, the literal text
    written since the previous verb and the text put in its place; and
    the literal text after the last verb. *)
Fixpoint sites (ps : list piece) (lit : string)
  : list (string * string) * string :=
  match ps with
  | [] => ([], lit)
  | Lit c :: ps' => sites ps' (lit +:+ str1 c)
  | Subst text :: ps' =>
    let (l, last) := sites ps' EmptyString in ((lit, text) :: l, last)
  end.

Definition fmt_sites (format : string) (args : list arg)
  : list (string * string) * string :=
  match printed format args with
  | Some ps => sites ps EmptyString
  | None => ([], fmt_Sprintf_other format args)
  end.

(** Writing the sites out again. *)
Definition fill (ss : list (string * string) * string) : string :=
  fold_right (fun p acc => fst p +:+ snd p +:+ acc) (snd ss) (fst ss).

(** [strings.HasSuffix] and [strings.HasPrefix]. *)
Definition strings_HasSuffix (s suffix : string) : bool :=
  (String.length suffix <=? String.length s)%nat
  && String.eqb (String.substring (String.length s - String.length suffix)
                                  (String.length suffix) s) suffix.

Definition strings_HasPrefix (s prefix : string) : bool :=
  String.prefix prefix s.

(** The texts substituted between [before] and [after]: at the verbs
    whose preceding literal text ends in [before] and whose following
    literal text begins with [after]. *)
Fixpoint substitutedIn (before after : string)
  (l : list (string * string)) (last : string) : list string :=
  match l with
  | [] => []
  | (lit, text) :: l' =>
    let next := match l' with [] => last | (lit', _) :: _ => lit' end in
    (if strings_HasSuffix lit before && strings_HasPrefix next after
     then [text] else [])
    ++ substitutedIn before after l' last
  end.

Definition substituted (before after : string)
  (ss : list (string * string) * string) : list string :=
  substitutedIn before after (fst ss) (snd ss).

(** ** The provider *)

(** [helmConfigTemplate]: the template of the Helm config. *)
Definition helmConfigTemplate : string :=
"global:
  enabled: false
  name: consul
  datacenter: %s
  acls:
    manageSystemACLs: true
    bootstrapToken:
      secretName: %s-bootstrap-token
      secretKey: token
  gossipEncryption:
    secretName: %s-hcs
    secretKey: gossipEncryptionKey
  tls:
    enabled: true
    enableAutoEncrypt: true
    caCert:
      secretName: %s-hcs
      secretKey: caCert
externalServers:
  enabled: true
  hosts: %s
  httpsPort: 443
  useSystemRoots: true
  k8sAuthMethodHost: https://%s:443
client:
  enabled: true
  # If you are using Kubenet in your AKS cluster (the default network),
  # uncomment the line below.
  # exposeGossipPorts: true
  join: %s
connectInject:
  enabled: true".

(** [generateHelmConfig]: the helm config for the name, the data
    center, the FQDN and the retry join addresses. *)
Definition generateHelmConfig (name datacenter fqdn : string)
  (retryJoin : list string) : string :=
  let lower := strings_ToLower name in
  let rj := fmt_Sprintf "%q" [AStrings retryJoin] in
  let rj := strings_Replace rj (str1 dquote) (str1 squote) (-1) in
  fmt_Sprintf helmConfigTemplate
    [AString datacenter;
     AString lower; AString lower; AString lower;
     AString rj;
     AString fqdn;
     AString rj].

(** The value of [rj] in [generateHelmConfig]: [retryJoin] printed with
    [%q], its double quotes changed into single quotes. *)
Definition quotedRetryJoin (retryJoin : list string) : string :=
  strings_Replace (fmt_Sprintf "%q" [AStrings retryJoin])
                  (str1 dquote) (str1 squote) (-1).

(** The operands of the last call of [generateHelmConfig], in their
    order. *)
Definition helmConfigArgs (name datacenter fqdn : string)
  (retryJoin : list string) : list arg :=
  [AString datacenter;
   AString (strings_ToLower name); AString (strings_ToLower name);
   AString (strings_ToLower name);
   AString (quotedRetryJoin retryJoin);
   AString fqdn;
   AString (quotedRetryJoin retryJoin)].

(** *** The schema and the resource data *)

Inductive validator :=
| validateResourceGroupName
| validateSlugID
| validateStringNotEmpty.

(** A [schema.Schema] of type [schema.TypeString]. *)
Record Schema := mkSchema {
  Required : bool;
  Optional : bool;
  Computed : bool;
  ValidateDiagFunc : option validator
}.

(** The [Schema] field of [dataSourceAgentHelmConfig]. *)
Definition dataSourceAgentHelmConfig : gmap string Schema :=
  list_to_map
    [("resource_group_name",
      mkSchema true false false (Some validateResourceGroupName));
     ("managed_application_name",
      mkSchema true false false (Some validateSlugID));
     ("aks_cluster_name",
      mkSchema true false false (Some validateStringNotEmpty));
     ("aks_resource_group",
      mkSchema false true false (Some validateStringNotEmpty));
     ("config", mkSchema false false true None)].

(** [schema.ResourceData]: the string attributes that are set, and the
    identifier. *)
Record ResourceData := mkResourceData {
  attrs : gmap string string;
  Id : string
}.

(** [d.Get(key).(string)]: the zero value when the attribute is not
    set. *)
Definition d_Get (d : ResourceData) (key : string) : string :=
  default EmptyString (attrs d !! key).

(** [d.Set(key, value)] with a string value. *)
Definition d_Set (d : ResourceData) (key value : string)
  : option error * ResourceData :=
  match dataSourceAgentHelmConfig !! key with
  | Some _ => (None, mkResourceData (<[key := value]> (attrs d)) (Id d))
  | None => (Some (schema_Set_error key), d)
  end.

Definition d_SetId (d : ResourceData) (v : string) : ResourceData :=
  mkResourceData (attrs d) v.

(** *** Diagnostics *)

Inductive Severity := Error | Warning.

Record Diagnostic := mkDiagnostic {
  severity : Severity;
  Summary : string
}.

Definition Diagnostics := list Diagnostic.

Definition diag_Errorf (format : string) (a : list arg) : Diagnostics :=
  [mkDiagnostic Error (fmt_Sprintf format a)].

Definition diag_FromErr (err : error) : Diagnostics :=
  [mkDiagnostic Error (error_Error err)].

(** *** The upstream clients

    What the read function uses of the answers.  A pointer field is an
    [option]: [None] is the nil pointer.  The status code is the one of
    the response that comes with every answer without error. *)

Record Application := mkApplication {
  app_StatusCode : Z;
  ManagedResourceGroupID : option string;
  ID : option string
}.

Record ConfigResponse := mkConfigResponse { ClientConfig : string }.

Record ManagedCluster := mkManagedCluster {
  mc_StatusCode : Z;
  Fqdn : option string
}.

(** [clients.Client]: what each of the three calls answers. *)
Record Client := mkClient {
  ManagedApplication_Get : string -> string -> Application * option error;
  CustomResourceProvider_Config : string -> ConfigResponse * option error;
  ManagedClusters_Get : string -> string -> ManagedCluster * option error
}.

(** The calls made upstream, in the order they are made. *)
Inductive Call :=
| CallManagedApplicationGet (resourceGroup name : string)
| CallConfig (managedResourceGroupID : string)
| CallManagedClustersGet (resourceGroup name : string).

(** *** The read function

    The function works on the resource data [d] and calls upstream; it
    ends by returning diagnostics or by a panic on a nil pointer. *)

Record World := mkWorld {
  w_d : ResourceData;
  w_calls : list Call
}.

Inductive exit :=
| Return (ds : Diagnostics)
| Panic.

Inductive step (A : Type) :=
| Next (a : A)
| Exit (e : exit).
Arguments Next {A} a.
Arguments Exit {A} e.

Definition M (A : Type) : Type := World -> step A * World.

Definition ret {A} (a : A) : M A := fun w => (Next a, w).

Definition bind {A B} (m : M A) (k : A -> M B) : M B :=
  fun w =>
    match m w with
    | (Next a, w') => k a w'
    | (Exit e, w') => (Exit e, w')
    end.

Notation "x <- m ;; k" := (bind m (fun x => k))
  (at level 100, m at next level, right associativity).
Notation "m ;;; k" := (bind m (fun _ => k))
  (at level 100, right associativity).

(** [return ds]. *)
Definition returns {A} (ds : Diagnostics) : M A :=
  fun w => (Exit (Return ds), w).

(** [*p]. *)
Definition deref {A} (p : option A) : M A :=
  fun w => match p with
           | Some v => (Next v, w)
           | None => (Exit Panic, w)
           end.

Definition get (key : string) : M string :=
  fun w => (Next (d_Get (w_d w) key), w).

Definition set (key value : string) : M (option error) :=
  fun w => let (err, d') := d_Set (w_d w) key value in
           (Next err, mkWorld d' (w_calls w)).

Definition setId (v : string) : M unit :=
  fun w => (Next tt, mkWorld (d_SetId (w_d w) v) (w_calls w)).

Definition call {A} (c : Call) (answer : A) : M A :=
  fun w => (Next answer, mkWorld (w_d w) (w_calls w ++ [c])).

(** [dataSourceAgentHelmConfigRead]. *)
Definition dataSourceAgentHelmConfigRead_body (meta : Client)
  : M Diagnostics :=
  resourceGroupName <- get "resource_group_name" ;;
  managedAppName <- get "managed_application_name" ;;
  r <- call (CallManagedApplicationGet resourceGroupName managedAppName)
            (ManagedApplication_Get meta resourceGroupName managedAppName) ;;
  let (app, err) := r : Application * option error in
  match err with
  | Some e =>
    returns (diag_Errorf
      "failed to check for presence of existing HCS Cluster (Managed Application %q) (Resource Group %q): %+v"
      [AString managedAppName; AString resourceGroupName; AError e])
  | None => ret tt
  end ;;;
  (if app_StatusCode app =? 404 then
     returns (diag_Errorf
       "[ERROR] no HCS Cluster found for (Managed Application %q) (Resource Group %q)."
       [AString managedAppName; AString resourceGroupName])
   else ret tt) ;;;
  managedAppManagedResourceGroupID <- deref (ManagedResourceGroupID app) ;;
  r <- call (CallConfig managedAppManagedResourceGroupID)
            (CustomResourceProvider_Config meta
               managedAppManagedResourceGroupID) ;;
  let (resp, err) := r : ConfigResponse * option error in
  match err with
  | Some e =>
    returns (diag_Errorf "failed to get config for managed app: %+v"
                         [AError e])
  | None => ret tt
  end ;;;
  let (consulConfig, err) := json_Unmarshal (ClientConfig resp) in
  match err with
  | Some e =>
    returns (diag_Errorf "failed to json unmarshal Consul config %v"
                         [AError e])
  | None => ret tt
  end ;;;
  aksResourceGroup <- get "aks_resource_group" ;;
  let aksResourceGroup :=
    if String.eqb aksResourceGroup EmptyString then resourceGroupName
    else aksResourceGroup in
  aksClusterName <- get "aks_cluster_name" ;;
  r <- call (CallManagedClustersGet aksResourceGroup aksClusterName)
            (ManagedClusters_Get meta aksResourceGroup aksClusterName) ;;
  let (mcResp, err) := r : ManagedCluster * option error in
  match err with
  | Some e =>
    returns (diag_Errorf
      "failed to check for presence of existing AKS Cluster (Cluster name %q) (Resource Group %q): %+v"
      [AString aksClusterName; AString aksResourceGroup; AError e])
  | None => ret tt
  end ;;;
  (if mc_StatusCode mcResp =? 404 then
     returns (diag_Errorf
       "[ERROR] no AKS Cluster found for (Cluster name %q) (Resource Group %q)."
       [AString aksClusterName; AString aksResourceGroup])
   else ret tt) ;;;
  fqdn <- deref (Fqdn mcResp) ;;
  err <- set "config"
             (generateHelmConfig managedAppName (Datacenter consulConfig)
                                 fqdn (RetryJoin consulConfig)) ;;
  match err with
  | Some e => returns (diag_FromErr e)
  | None => ret tt
  end ;;;
  id <- deref (ID app) ;;
  setId (id +:+ "/agent-helm-config") ;;;
  ret [].

(** Running the function on [d]: how it ends, the resource data it
    leaves and the calls it made. *)
Definition dataSourceAgentHelmConfigRead (meta : Client) (d : ResourceData)
  : exit * ResourceData * list Call :=
  match dataSourceAgentHelmConfigRead_body meta (mkWorld d []) with
  | (Next ds, w) => (Return ds, w_d w, w_calls w)
  | (Exit e, w) => (e, w_d w, w_calls w)
  end.

(** ** The vocabulary of the statements *)

(** The literal text of [helmConfigTemplate] before each of its seven
    verbs, named after the key the verb is the value of, and the text
    after the last verb. *)
Definition lit_datacenter : string :=
"global:
  enabled: false
  name: consul
  datacenter: ".

Definition lit_bootstrapToken : string :=
"
  acls:
    manageSystemACLs: true
    bootstrapToken:
      secretName: ".

Definition lit_gossipEncryption : string :=
"-bootstrap-token
      secretKey: token
  gossipEncryption:
    secretName: ".

Definition lit_caCert : string :=
"-hcs
    secretKey: gossipEncryptionKey
  tls:
    enabled: true
    enableAutoEncrypt: true
    caCert:
      secretName: ".

Definition lit_hosts : string :=
"-hcs
      secretKey: caCert
externalServers:
  enabled: true
  hosts: ".

Definition lit_k8sAuthMethodHost : string :=
"
  httpsPort: 443
  useSystemRoots: true
  k8sAuthMethodHost: https://".

Definition lit_join : string :=
":443
client:
  enabled: true
  # If you are using Kubenet in your AKS cluster (the default network),
  # uncomment the line below.
  # exposeGossipPorts: true
  join: ".

Definition lit_end : string :=
"
connectInject:
  enabled: true".

(** The sites of the call [generateHelmConfig] makes. *)
Definition helmConfigSites (name datacenter fqdn : string)
  (retryJoin : list string) : list (string * string) * string :=
  fmt_sites helmConfigTemplate (helmConfigArgs name datacenter fqdn retryJoin).

(** The text in front of the value of [externalServers.hosts] and of
    [client.join]. *)
Definition key_hosts : string :=
"externalServers:
  enabled: true
  hosts: ".

Definition key_join : string :=
"client:
  enabled: true
  # If you are using Kubenet in your AKS cluster (the default network),
  # uncomment the line below.
  # exposeGossipPorts: true
  join: ".

Definition key_secretName : string := "secretName: ".

(** [f] on every byte of [s]. *)
Fixpoint mapBytes (f : ascii -> ascii) (s : string) : string :=
  match s with
  | EmptyString => EmptyString
  | String c t => String (f c) (mapBytes f t)
  end.

(** A double quote becomes a single quote. *)
Definition swapQuote (c : ascii) : ascii :=
  if Ascii.eqb c dquote then squote else c.

(** A printable ASCII byte other than the double quote and the
    backslash: [strconv.Quote] writes it as it is. *)
Definition plain_byte (c : ascii) : bool :=
  (0x20 <=? byteZ c) && (byteZ c <=? 0x7E)
  && negb (Ascii.eqb c dquote) && negb (Ascii.eqb c backslash).

Fixpoint plain (s : string) : bool :=
  match s with
  | EmptyString => true
  | String c t => plain_byte c && plain t
  end.

(** A string quoted with [quote] on both sides. *)
Definition wrap (quote : ascii) (s : string) : string :=
  String quote (s +:+ str1 quote).

(** The texts of the two diagnostics of the managed application
    lookup. *)
Definition appLookupFailed (name resourceGroup : string) (e : error)
  : string :=
  "failed to check for presence of existing HCS Cluster (Managed Application "
  +:+ strconv_Quote name +:+ ") (Resource Group "
  +:+ strconv_Quote resourceGroup +:+ "): " +:+ error_plusv e.

Definition appNotFound (name resourceGroup : string) : string :=
  "[ERROR] no HCS Cluster found for (Managed Application "
  +:+ strconv_Quote name +:+ ") (Resource Group "
  +:+ strconv_Quote resourceGroup +:+ ").".

(** Whether [s] has an ASCII upper-case letter. *)
Fixpoint hasUpper (s : string) : bool :=
  match s with
  | EmptyString => false
  | String c t =>
    ((byteZ "A" <=? byteZ c) && (byteZ c <=? byteZ "Z")) || hasUpper t
  end.

(** The resource group of the managed cluster lookup, as the read
    function settles it: [aks_resource_group], and [resource_group_name]
    when that is the empty string. *)
Definition aksResourceGroupOf (d : ResourceData) : string :=
  if String.eqb (d_Get d "aks_resource_group") EmptyString
  then d_Get d "resource_group_name"
  else d_Get d "aks_resource_group".

(** The texts of the other diagnostics of the read function. *)
Definition configFailed (e : error) : string :=
  "failed to get config for managed app: " +:+ error_plusv e.

Definition unmarshalFailed (e : error) : string :=
  "failed to json unmarshal Consul config " +:+ error_Error e.

Definition clusterLookupFailed (name resourceGroup : string) (e : error)
  : string :=
  "failed to check for presence of existing AKS Cluster (Cluster name "
  +:+ strconv_Quote name +:+ ") (Resource Group "
  +:+ strconv_Quote resourceGroup +:+ "): " +:+ error_plusv e.

Definition clusterNotFound (name resourceGroup : string) : string :=
  "[ERROR] no AKS Cluster found for (Cluster name "
  +:+ strconv_Quote name +:+ ") (Resource Group "
  +:+ strconv_Quote resourceGroup +:+ ").".

(** The resource data after a read that went through. *)
Definition readDone (d : ResourceData) (config id : string) : ResourceData :=
  mkResourceData (<["config" := config]> (attrs d))
                 (id +:+ "/agent-helm-config").

(** The read looks the managed cluster up in [group]: after the config
    of the managed application [app] was fetched and parsed into
    [consulConfig], what the client answers for [group] and the cluster
    name decides how the read ends, and [group] is the one in the call
    and in the diagnostics. *)
Definition clusterLookedUpIn (meta : Client) (d : ResourceData)
  (app : Application) (mrg : string) (consulConfig : ConsulConfig)
  (group : string) : Prop :=
  let resourceGroupName := d_Get d "resource_group_name" in
  let managedAppName := d_Get d "managed_application_name" in
  let aksClusterName := d_Get d "aks_cluster_name" in
  let calls := [CallManagedApplicationGet resourceGroupName managedAppName;
                CallConfig mrg;
                CallManagedClustersGet group aksClusterName] in
  snd (dataSourceAgentHelmConfigRead meta d) = calls
  /\ (forall mcResp e,
        ManagedClusters_Get meta group aksClusterName = (mcResp, Some e) ->
        dataSourceAgentHelmConfigRead meta d
        = (Return [mkDiagnostic Error
                     (clusterLookupFailed aksClusterName group e)],
           d, calls))
  /\ (forall mcResp,
        ManagedClusters_Get meta group aksClusterName = (mcResp, None) ->
        mc_StatusCode mcResp = 404 ->
        dataSourceAgentHelmConfigRead meta d
        = (Return [mkDiagnostic Error (clusterNotFound aksClusterName group)],
           d, calls))
  /\ (forall mcResp fqdn id,
        ManagedClusters_Get meta group aksClusterName = (mcResp, None) ->
        mc_StatusCode mcResp <> 404 ->
        Fqdn mcResp = Some fqdn ->
        ID app = Some id ->
        dataSourceAgentHelmConfigRead meta d
        = (Return [],
           readDone d
             (generateHelmConfig managedAppName (Datacenter consulConfig)
                                 fqdn (RetryJoin consulConfig)) id,
           calls)).

(** ** The library model on small inputs *)

Example decode_euro :
  utf8_DecodeRuneInString (String "226" (String "130" (String "172" "x")))
  = (0x20AC, 3%nat).
Proof. reflexivity. Qed.

Example encode_euro :
  utf8_EncodeRune 0x20AC
  = String "226" (String "130" (String "172" EmptyString)).
Proof. reflexivity. Qed.

Example quote_plain_ip :
  strconv_Quote "10.0.0.1" = String dquote ("10.0.0.1" +:+ str1 dquote).
Proof. reflexivity. Qed.

Example quote_escapes :
  strconv_Quote (String dquote (String "010" "a\"))
  = String dquote ("\" +:+ String dquote ("\na\\" +:+ str1 dquote)).
Proof. reflexivity. Qed.

Example quote_invalid_byte :
  strconv_Quote (String "255" "a") = String dquote ("\xffa" +:+ str1 dquote).
Proof. reflexivity. Qed.

Example lower_MyApp : strings_ToLower "MyApp" = "myapp".
Proof. reflexivity. Qed.

Example replace_all_quotes :
  strings_Replace (String dquote ("a" +:+ String dquote "b"))
                  (str1 dquote) (str1 squote) (-1)
  = String squote ("a" +:+ String squote "b").
Proof. reflexivity. Qed.

Example replace_limit : strings_Replace "aaaa" "aa" "b" 1 = "baa".
Proof. reflexivity. Qed.

Example replace_empty_old :
  strings_Replace "ab" EmptyString "-" (-1) = "-a-b-".
Proof. reflexivity. Qed.

Example sprintf_q_s :
  fmt_Sprintf "a %q b %s." [AString "x"; AString "y"]
  = "a " +:+ String dquote ("x" +:+ String dquote " b y.").
Proof. reflexivity. Qed.

Example sprintf_slice_q :
  fmt_Sprintf "%q" [AStrings ["a"; "b"]]
  = "[" +:+ String dquote ("a" +:+ String dquote (" " +:+
      String dquote ("b" +:+ String dquote "]"))).
Proof. reflexivity. Qed.

Example sprintf_slice_empty : fmt_Sprintf "%q" [AStrings []] = "[]".
Proof. reflexivity. Qed.

(** ** The shape of the rendered config *)

Lemma append_nil_r (s : string) : s +:+ EmptyString = s.
Proof. induction s; simpl; congruence. Qed.

Lemma append_assoc (s t u : string) : (s +:+ t) +:+ u = s +:+ (t +:+ u).
Proof. induction s; simpl; congruence. Qed.

Lemma sites_fill ps lit : fill (sites ps lit) = lit +:+ flatten ps.
Proof.
  revert lit. induction ps as [|[c|text] ps IH]; intros lit; simpl.
  - unfold fill. simpl. now rewrite append_nil_r.
  - rewrite IH. unfold str1. now rewrite append_assoc.
  - destruct (sites ps EmptyString) as [l last] eqn:E.
    specialize (IH EmptyString). rewrite E in IH.
    unfold fill in *. simpl in *. now rewrite IH.
Qed.

(** On a call inside the fragment, the text returned is its sites
    written out. *)
Lemma fmt_Sprintf_fill format args ps :
  printed format args = Some ps ->
  fmt_Sprintf format args = fill (fmt_sites format args).
Proof.
  intros H. unfold fmt_Sprintf, fmt_sites. rewrite H.
  now rewrite sites_fill.
Qed.

(** The template has seven [%s] and nothing else to interpret: with
    seven strings the call is inside the fragment. *)
Lemma template_printed a1 a2 a3 a4 a5 a6 a7 :
  exists ps,
    printed helmConfigTemplate
      [AString a1; AString a2; AString a3; AString a4;
       AString a5; AString a6; AString a7] = Some ps.
Proof. eexists. vm_compute. reflexivity. Qed.

Lemma template_sites a1 a2 a3 a4 a5 a6 a7 :
  fmt_sites helmConfigTemplate
    [AString a1; AString a2; AString a3; AString a4;
     AString a5; AString a6; AString a7]
  = ([(lit_datacenter, a1); (lit_bootstrapToken, a2);
      (lit_gossipEncryption, a3); (lit_caCert, a4); (lit_hosts, a5);
      (lit_k8sAuthMethodHost, a6); (lit_join, a7)], lit_end).
Proof. vm_compute. reflexivity. Qed.

Lemma helmConfigSites_eq name datacenter fqdn retryJoin :
  helmConfigSites name datacenter fqdn retryJoin
  = ([(lit_datacenter, datacenter);
      (lit_bootstrapToken, strings_ToLower name);
      (lit_gossipEncryption, strings_ToLower name);
      (lit_caCert, strings_ToLower name);
      (lit_hosts, quotedRetryJoin retryJoin);
      (lit_k8sAuthMethodHost, fqdn);
      (lit_join, quotedRetryJoin retryJoin)], lit_end).
Proof. apply template_sites. Qed.

Lemma generateHelmConfig_fill name datacenter fqdn retryJoin :
  generateHelmConfig name datacenter fqdn retryJoin
  = fill (helmConfigSites name datacenter fqdn retryJoin).
Proof.
  unfold generateHelmConfig, helmConfigSites, helmConfigArgs.
  destruct (template_printed datacenter (strings_ToLower name)
              (strings_ToLower name) (strings_ToLower name)
              (quotedRetryJoin retryJoin) fqdn (quotedRetryJoin retryJoin))
    as [ps Hps].
  now apply fmt_Sprintf_fill with ps.
Qed.

Lemma generateHelmConfig_eq name datacenter fqdn retryJoin :
  generateHelmConfig name datacenter fqdn retryJoin
  = lit_datacenter +:+ datacenter
    +:+ lit_bootstrapToken +:+ strings_ToLower name
    +:+ lit_gossipEncryption +:+ strings_ToLower name
    +:+ lit_caCert +:+ strings_ToLower name
    +:+ lit_hosts +:+ quotedRetryJoin retryJoin
    +:+ lit_k8sAuthMethodHost +:+ fqdn
    +:+ lit_join +:+ quotedRetryJoin retryJoin
    +:+ lit_end.
Proof.
  rewrite generateHelmConfig_fill, helmConfigSites_eq. reflexivity.
Qed.

(** ** The renderer *)

Ltac sites_of_template :=
  rewrite ?generateHelmConfig_fill, ?helmConfigSites_eq;
  repeat match goal with
         | |- context [strings_ToLower ?n] =>
           generalize (strings_ToLower n); intro
         | |- context [quotedRetryJoin ?l] =>
           generalize (quotedRetryJoin l); intro
         end.

(** C1, as the code has it.  For [joinAddresses] equal to 10.0.0.1 and
    10.0.0.2 the token put into the template wraps each address in
    single quotes and separates the addresses with one space, without
    a comma: it is ['10.0.0.1' '10.0.0.2'], at the [hosts] site and at
    the [join] site. *)
Theorem quotedRetryJoin_two_addresses name datacenter fqdn :
  let ss := helmConfigSites name datacenter fqdn ["10.0.0.1"; "10.0.0.2"] in
  quotedRetryJoin ["10.0.0.1"; "10.0.0.2"] = "['10.0.0.1' '10.0.0.2']"
  /\ substituted key_hosts EmptyString ss = ["['10.0.0.1' '10.0.0.2']"]
  /\ substituted key_join EmptyString ss = ["['10.0.0.1' '10.0.0.2']"].
Proof.
  intros ss. subst ss.
  assert (E : quotedRetryJoin ["10.0.0.1"; "10.0.0.2"]
              = "['10.0.0.1' '10.0.0.2']") by (vm_compute; reflexivity).
  split; [exact E|].
  rewrite helmConfigSites_eq, E.
  generalize (strings_ToLower name). intro lower.
  split; vm_compute; reflexivity.
Qed.

(** C2.  With the application name MyApp, the datacenter dc1, the
    cluster FQDN cluster.example.com and the single join address
    1.2.3.4, the rendered text contains each of the listed lines, and
    the [-hcs] secret name twice. *)
Theorem generateHelmConfig_scenario :
  let out := generateHelmConfig "MyApp" "dc1" "cluster.example.com"
                                ["1.2.3.4"] in
  strings_Contains out "datacenter: dc1" = true
  /\ strings_Contains out "secretName: myapp-bootstrap-token" = true
  /\ strings_Count out "secretName: myapp-hcs" = 2
  /\ strings_Contains out "hosts: ['1.2.3.4']" = true
  /\ strings_Contains out "k8sAuthMethodHost: https://cluster.example.com:443"
     = true
  /\ strings_Contains out "join: ['1.2.3.4']" = true.
Proof. repeat split; vm_compute; reflexivity. Qed.

(** C3.  Whatever the inputs, the text put at the [externalServers.hosts]
    site of the template and the text put at the [client.join] site are
    one and the same token, the one made from [retryJoin]. *)
Theorem hosts_token_is_join_token name datacenter fqdn retryJoin :
  let ss := helmConfigSites name datacenter fqdn retryJoin in
  generateHelmConfig name datacenter fqdn retryJoin = fill ss
  /\ substituted key_hosts EmptyString ss = [quotedRetryJoin retryJoin]
  /\ substituted key_join EmptyString ss = [quotedRetryJoin retryJoin]
  /\ substituted key_hosts EmptyString ss = substituted key_join EmptyString ss.
Proof.
  intros ss. subst ss. split; [apply generateHelmConfig_fill|].
  sites_of_template. repeat split; vm_compute; reflexivity.
Qed.

(** C4.  The template has exactly three [secretName] keys; the text put
    after each of them is [strings.ToLower] of the application name,
    followed by [-bootstrap-token] once and by [-hcs] twice.  The name
    need not even be non-empty. *)
Theorem secret_names_use_lowercased_name name datacenter fqdn retryJoin :
  let lower := strings_ToLower name in
  let ss := helmConfigSites name datacenter fqdn retryJoin in
  generateHelmConfig name datacenter fqdn retryJoin = fill ss
  /\ strings_Count helmConfigTemplate "secretName" = 3
  /\ substituted key_secretName EmptyString ss = [lower; lower; lower]
  /\ substituted key_secretName "-bootstrap-token" ss = [lower]
  /\ substituted key_secretName "-hcs" ss = [lower; lower].
Proof.
  intros lower ss. subst lower ss. split; [apply generateHelmConfig_fill|].
  split; [vm_compute; reflexivity|].
  sites_of_template. repeat split; vm_compute; reflexivity.
Qed.

(** C5.  For the empty [joinAddresses] the token is the empty bracket
    pair; the [hosts] and [join] sites are still there, each followed
    by the end of its line, and hold that token. *)
Theorem empty_retryJoin_renders_brackets name datacenter fqdn :
  let ss := helmConfigSites name datacenter fqdn [] in
  let newline := String "010" EmptyString in
  generateHelmConfig name datacenter fqdn [] = fill ss
  /\ quotedRetryJoin [] = "[]"
  /\ substituted key_hosts newline ss = ["[]"]
  /\ substituted key_join newline ss = ["[]"].
Proof.
  intros ss newline. subst ss newline.
  split; [apply generateHelmConfig_fill|].
  assert (E : quotedRetryJoin [] = "[]") by (vm_compute; reflexivity).
  split; [exact E|].
  rewrite helmConfigSites_eq, E.
  generalize (strings_ToLower name). intro lower.
  split; vm_compute; reflexivity.
Qed.

(** C8.  Two renderings of the same application name put the same text
    at the three [secretName] sites, [strings.ToLower] of that name,
    whatever the datacenter, the FQDN and the join addresses of each. *)
Theorem secret_names_depend_on_name_only
  name datacenter1 fqdn1 retryJoin1 datacenter2 fqdn2 retryJoin2 :
  let ss1 := helmConfigSites name datacenter1 fqdn1 retryJoin1 in
  let ss2 := helmConfigSites name datacenter2 fqdn2 retryJoin2 in
  generateHelmConfig name datacenter1 fqdn1 retryJoin1 = fill ss1
  /\ generateHelmConfig name datacenter2 fqdn2 retryJoin2 = fill ss2
  /\ substituted key_secretName EmptyString ss1 = substituted key_secretName EmptyString ss2
  /\ substituted key_secretName EmptyString ss1
     = [strings_ToLower name; strings_ToLower name; strings_ToLower name].
Proof.
  intros ss1 ss2. subst ss1 ss2.
  split; [apply generateHelmConfig_fill|].
  split; [apply generateHelmConfig_fill|].
  sites_of_template. repeat split; vm_compute; reflexivity.
Qed.

(** ** The token in general *)

Lemma mapBytes_app f s t : mapBytes f (s +:+ t) = mapBytes f s +:+ mapBytes f t.
Proof. induction s; simpl; congruence. Qed.

Lemma replaceLoop_quotes n s :
  n < 0 ->
  replaceLoop (str1 dquote) (str1 squote) n 0 s = mapBytes swapQuote s.
Proof.
  unfold str1. revert n.
  induction s as [|c t IH]; intros n Hn; [reflexivity|].
  cbn [replaceLoop mapBytes].
  destruct (n =? 0) eqn:E; [apply Z.eqb_eq in E; lia|].
  unfold swapQuote. cbn [String.prefix String.length Nat.sub].
  destruct (ascii_dec dquote c) as [<-|Hne].
  - replace (String.prefix EmptyString t) with true by (now destruct t).
    cbn. now rewrite IH by lia.
  - destruct (Ascii.eqb c dquote) eqn:Ec.
    + apply Ascii.eqb_eq in Ec. congruence.
    + now rewrite IH.
Qed.

Lemma strings_Replace_quotes s :
  strings_Replace s (str1 dquote) (str1 squote) (-1) = mapBytes swapQuote s.
Proof. unfold strings_Replace. cbn. now apply replaceLoop_quotes. Qed.

Lemma quoteLoop_plain_byte c t :
  plain_byte c = true -> quoteLoop 0 (String c t) = String c (quoteLoop 0 t).
Proof.
  destruct c as [[] [] [] [] [] [] [] []]; intros H;
    first [discriminate H | reflexivity].
Qed.

Lemma quoteLoop_plain s : plain s = true -> quoteLoop 0 s = s.
Proof.
  induction s as [|c t IH]; [reflexivity|]. cbn [plain].
  intros [Hc Ht]%andb_prop. rewrite quoteLoop_plain_byte by exact Hc.
  now rewrite IH.
Qed.

Lemma mapBytes_swapQuote_plain s :
  plain s = true -> mapBytes swapQuote s = s.
Proof.
  induction s as [|c t IH]; [reflexivity|]. cbn [plain mapBytes].
  intros [Hc Ht]%andb_prop. rewrite IH by exact Ht. f_equal.
  unfold plain_byte in Hc. unfold swapQuote.
  destruct (Ascii.eqb c dquote); [|reflexivity].
  rewrite andb_false_r in Hc. discriminate.
Qed.

Lemma strconv_Quote_plain s : plain s = true -> strconv_Quote s = wrap dquote s.
Proof. intros H. unfold strconv_Quote, wrap. now rewrite quoteLoop_plain. Qed.

Lemma mapM_fmtString_q l :
  mapM (fmtString false "q") l = Some (map strconv_Quote l).
Proof. induction l as [|a l IH]; [reflexivity|]. cbn. now rewrite IH. Qed.

Lemma mapBytes_join f sep l :
  mapBytes f (join sep l) = join (mapBytes f sep) (map (mapBytes f) l).
Proof.
  induction l as [|a [|b l] IH]; [reflexivity..|].
  change (join sep (a :: b :: l)) with (a +:+ sep +:+ join sep (b :: l)).
  rewrite !mapBytes_app, IH. reflexivity.
Qed.

(** The token for any addresses: between brackets, separated by one
    space, each address as [strconv.Quote] writes it with its double
    quotes changed into single quotes. *)
Lemma quotedRetryJoin_eq retryJoin :
  quotedRetryJoin retryJoin
  = "[" +:+ join " " (map (fun a => mapBytes swapQuote (strconv_Quote a))
                          retryJoin) +:+ "]".
Proof.
  unfold quotedRetryJoin. rewrite strings_Replace_quotes.
  unfold fmt_Sprintf, printed.
  change (parseFormat "%q") with (Some [Verb false "q"]).
  cbn [mbind option_bind doPrintf printArg fmap option_fmap option_map].
  rewrite mapM_fmtString_q.
  cbn [mbind option_bind doPrintf printArg fmap option_fmap option_map flatten].
  rewrite append_nil_r, !mapBytes_app, mapBytes_join, map_map. reflexivity.
Qed.

(** X3.  For addresses of plain bytes, the token is the addresses
    between brackets, each one between single quotes, separated by one
    space. *)
Lemma quotedRetryJoin_plain retryJoin :
  forallb plain retryJoin = true ->
  quotedRetryJoin retryJoin
  = "[" +:+ join " " (map (wrap squote) retryJoin) +:+ "]".
Proof.
  intros H. rewrite quotedRetryJoin_eq. do 3 f_equal.
  induction retryJoin as [|a l IH]; [reflexivity|].
  cbn [forallb] in H. apply andb_prop in H as [Ha Hl].
  cbn [map]. rewrite IH by exact Hl. f_equal.
  rewrite strconv_Quote_plain by exact Ha. unfold wrap.
  cbn [mapBytes]. rewrite mapBytes_app, mapBytes_swapQuote_plain by exact Ha.
  reflexivity.
Qed.

(** ** The read function *)

#[local] Arguments strconv_Quote : simpl never.

Ltac sprintf_eval :=
  unfold diag_Errorf, fmt_Sprintf, printed;
  match goal with
  | |- context [parseFormat ?f] =>
    let x := eval vm_compute in (parseFormat f) in
    change (parseFormat f) with x
  end;
  simpl; rewrite ?append_nil_r; reflexivity.

Lemma d_Set_config d v :
  d_Set d "config" v
  = (None, mkResourceData (<["config" := v]> (attrs d)) (Id d)).
Proof. reflexivity. Qed.

Lemma Errorf_appLookupFailed name resourceGroup e :
  diag_Errorf
    "failed to check for presence of existing HCS Cluster (Managed Application %q) (Resource Group %q): %+v"
    [AString name; AString resourceGroup; AError e]
  = [mkDiagnostic Error (appLookupFailed name resourceGroup e)].
Proof. unfold appLookupFailed. sprintf_eval. Qed.

Lemma Errorf_appNotFound name resourceGroup :
  diag_Errorf
    "[ERROR] no HCS Cluster found for (Managed Application %q) (Resource Group %q)."
    [AString name; AString resourceGroup]
  = [mkDiagnostic Error (appNotFound name resourceGroup)].
Proof. unfold appNotFound. sprintf_eval. Qed.

Lemma appNotFound_not_appLookupFailed name resourceGroup name' resourceGroup' e :
  appNotFound name resourceGroup <> appLookupFailed name' resourceGroup' e.
Proof. unfold appNotFound, appLookupFailed. simpl. discriminate. Qed.

Ltac run_read :=
  unfold dataSourceAgentHelmConfigRead, dataSourceAgentHelmConfigRead_body,
    bind, get, call, deref, returns, ret, set, setId;
  cbn [w_d w_calls fst snd].

(** C7.  When the managed application lookup answers without an error
    and with status 404, the read returns the one diagnostic [no HCS
    Cluster found], which quotes the managed application name and the
    resource group name it was given; it returns right after that
    lookup, and leaves the resource data as it was, so [config] is not
    set.  A lookup that answers with an error gives the other
    diagnostic, [failed to check for presence], with the error added,
    and the two texts are never the same. *)
Theorem read_app_not_found meta d app :
  let resourceGroupName := d_Get d "resource_group_name" in
  let managedAppName := d_Get d "managed_application_name" in
  ManagedApplication_Get meta resourceGroupName managedAppName = (app, None) ->
  app_StatusCode app = 404 ->
  dataSourceAgentHelmConfigRead meta d
  = (Return [mkDiagnostic Error (appNotFound managedAppName resourceGroupName)],
     d, [CallManagedApplicationGet resourceGroupName managedAppName])
  /\ forall meta' app' e,
      ManagedApplication_Get meta' resourceGroupName managedAppName
      = (app', Some e) ->
      dataSourceAgentHelmConfigRead meta' d
      = (Return [mkDiagnostic Error
                   (appLookupFailed managedAppName resourceGroupName e)],
         d, [CallManagedApplicationGet resourceGroupName managedAppName])
      /\ appLookupFailed managedAppName resourceGroupName e
         <> appNotFound managedAppName resourceGroupName.
Proof.
  intros rg name Hget H404. split.
  - run_read. fold rg name. rewrite Hget. cbn [w_d w_calls].
    rewrite H404. cbn [Z.eqb Pos.eqb]. rewrite Errorf_appNotFound.
    destruct d. reflexivity.
  - intros meta' app' e Hget'. split.
    + run_read. fold rg name. rewrite Hget'. cbn [w_d w_calls].
      rewrite Errorf_appLookupFailed. destruct d. reflexivity.
    + intros E. symmetry in E. revert E. apply appNotFound_not_appLookupFailed.
Qed.

(** C9.  A read that returns no diagnostic has set the identifier to
    the identifier of the managed application followed by
    [/agent-helm-config]. *)
Theorem read_success_sets_id meta d d' calls :
  dataSourceAgentHelmConfigRead meta d = (Return [], d', calls) ->
  exists app id,
    ManagedApplication_Get meta (d_Get d "resource_group_name")
                                (d_Get d "managed_application_name")
    = (app, None)
    /\ ID app = Some id
    /\ Id d' = id +:+ "/agent-helm-config".
Proof.
  run_read.
  destruct (ManagedApplication_Get meta _ _) as [app [e|]];
    [inversion 1|].
  destruct (app_StatusCode app =? 404); [inversion 1|].
  destruct (ManagedResourceGroupID app) as [mrg|]; [|inversion 1].
  cbn [w_d w_calls].
  destruct (CustomResourceProvider_Config meta mrg) as [resp [e|]];
    [inversion 1|].
  destruct (json_Unmarshal (ClientConfig resp)) as [consulConfig [e|]];
    [inversion 1|].
  cbn [w_d w_calls].
  destruct (ManagedClusters_Get meta _ _) as [mcResp [e|]]; [inversion 1|].
  destruct (mc_StatusCode mcResp =? 404); [inversion 1|].
  destruct (Fqdn mcResp) as [fqdn|]; [|inversion 1].
  cbn [w_d w_calls]. rewrite d_Set_config.
  destruct (ID app) as [id|] eqn:EID; [|inversion 1].
  cbn [w_d w_calls d_SetId]. intros H. inversion H.
  exists app, id. repeat split; try assumption. 
Qed.

(** The calls of a read whose managed application lookup, config fetch
    and parse succeed. *)
Lemma read_calls meta d app mrg resp consulConfig :
  let resourceGroupName := d_Get d "resource_group_name" in
  let managedAppName := d_Get d "managed_application_name" in
  let aksResourceGroup := d_Get d "aks_resource_group" in
  ManagedApplication_Get meta resourceGroupName managedAppName = (app, None) ->
  app_StatusCode app <> 404 ->
  ManagedResourceGroupID app = Some mrg ->
  CustomResourceProvider_Config meta mrg = (resp, None) ->
  json_Unmarshal (ClientConfig resp) = (consulConfig, None) ->
  snd (dataSourceAgentHelmConfigRead meta d)
  = [CallManagedApplicationGet resourceGroupName managedAppName;
     CallConfig mrg;
     CallManagedClustersGet
       (if String.eqb aksResourceGroup EmptyString then resourceGroupName
        else aksResourceGroup)
       (d_Get d "aks_cluster_name")].
Proof.
  intros rg name aks Hget H404 Hmrg Hcfg Hjson.
  apply Z.eqb_neq in H404.
  run_read. fold rg name aks. rewrite Hget. cbn [w_d w_calls].
  rewrite H404, Hmrg. rewrite Hcfg. rewrite Hjson. cbn [w_d w_calls].
  fold aks.
  destruct (ManagedClusters_Get meta _ _) as [mcResp [e|]]; [reflexivity|].
  destruct (mc_StatusCode mcResp =? 404); [reflexivity|].
  destruct (Fqdn mcResp) as [fqdn|]; [|reflexivity].
  cbn [w_d w_calls]. rewrite d_Set_config.
  destruct (ID app) as [id|]; reflexivity.
Qed.


(** ** More on the renderer *)

(** X1.  The text [generateHelmConfig] returns, byte for byte: the
    literal text of the template with the datacenter, three times the
    lower-cased name, the token, the FQDN and the token again in the
    place of its seven verbs.  The operands are written as they are: a
    percent sign in one of them is not read as a verb. *)
Theorem generateHelmConfig_text name datacenter fqdn retryJoin :
  generateHelmConfig name datacenter fqdn retryJoin
  = lit_datacenter +:+ datacenter
    +:+ lit_bootstrapToken +:+ strings_ToLower name
    +:+ lit_gossipEncryption +:+ strings_ToLower name
    +:+ lit_caCert +:+ strings_ToLower name
    +:+ lit_hosts +:+ quotedRetryJoin retryJoin
    +:+ lit_k8sAuthMethodHost +:+ fqdn
    +:+ lit_join +:+ quotedRetryJoin retryJoin
    +:+ lit_end.
Proof.
  rewrite generateHelmConfig_fill, helmConfigSites_eq. reflexivity.
Qed.

Lemma Contains_mapBytes_swapQuote s :
  strings_Contains (mapBytes swapQuote s) (str1 dquote) = false.
Proof.
  induction s as [|c t IH]; [reflexivity|].
  cbn [mapBytes strings_Contains]. rewrite IH, orb_false_r.
  unfold str1. cbn [String.prefix].
  destruct (ascii_dec dquote (swapQuote c)) as [E|]; [|reflexivity].
  exfalso. unfold swapQuote in E.
  destruct (Ascii.eqb c dquote) eqn:Ec; [discriminate E|].
  apply Ascii.eqb_neq in Ec. congruence.
Qed.

(** X2.  Whatever the addresses are, the token has no double quote
    left in it. *)
Theorem quotedRetryJoin_no_double_quote retryJoin :
  strings_Contains (quotedRetryJoin retryJoin) (str1 dquote) = false.
Proof.
  unfold quotedRetryJoin. rewrite strings_Replace_quotes.
  apply Contains_mapBytes_swapQuote.
Qed.

Lemma plain_app s t : plain s = true -> plain t = true -> plain (s +:+ t) = true.
Proof.
  intros Hs Ht. induction s as [|c s IH]; [exact Ht|].
  cbn [plain] in Hs. apply andb_prop in Hs as [Hc Hs].
  cbn [String.append plain]. now rewrite Hc, IH.
Qed.

Lemma swapQuote_Quote_plain a :
  plain a = true -> mapBytes swapQuote (strconv_Quote a) = wrap squote a.
Proof.
  intros Ha. rewrite strconv_Quote_plain by exact Ha. unfold wrap.
  cbn [mapBytes]. rewrite mapBytes_app, mapBytes_swapQuote_plain by exact Ha.
  reflexivity.
Qed.

(** X4.  The token does not tell the addresses apart: one address made
    of [a], a single quote, a space, a single quote and [b] gives the
    token of the two addresses [a] and [b], and so the same config. *)
Theorem quotedRetryJoin_ambiguous name datacenter fqdn a b :
  plain a = true -> plain b = true ->
  quotedRetryJoin [a +:+ "' '" +:+ b] = quotedRetryJoin [a; b]
  /\ generateHelmConfig name datacenter fqdn [a +:+ "' '" +:+ b]
     = generateHelmConfig name datacenter fqdn [a; b].
Proof.
  intros Ha Hb.
  assert (E : quotedRetryJoin [a +:+ "' '" +:+ b] = quotedRetryJoin [a; b]).
  { rewrite !quotedRetryJoin_eq. cbn [map join].
    rewrite !swapQuote_Quote_plain;
      [|exact Hb|exact Ha|apply plain_app; [exact Ha|apply plain_app; [reflexivity|exact Hb]]].
    unfold wrap, str1. simpl.
    repeat (rewrite append_assoc; simpl). reflexivity. }
  split; [exact E|].
  rewrite !generateHelmConfig_fill, !helmConfigSites_eq, E. reflexivity.
Qed.

Lemma lowerByte_lowerByte c : lowerByte (lowerByte c) = lowerByte c.
Proof. destruct c as [[] [] [] [] [] [] [] []]; reflexivity. Qed.

Lemma lowerByte_ascii c :
  (byteZ c <? RuneSelf) = true -> (byteZ (lowerByte c) <? RuneSelf) = true.
Proof. destruct c as [[] [] [] [] [] [] [] []]; intros H; first [discriminate H | reflexivity]. Qed.

Lemma lowerByte_not_upper c :
  (byteZ "A" <=? byteZ (lowerByte c)) && (byteZ (lowerByte c) <=? byteZ "Z")
  = false.
Proof. destruct c as [[] [] [] [] [] [] [] []]; reflexivity. Qed.

Lemma isASCII_lowerASCII s : isASCII s = true -> isASCII (lowerASCII s) = true.
Proof.
  induction s as [|c t IH]; [reflexivity|]. cbn [isASCII lowerASCII].
  intros [Hc Ht]%andb_prop. now rewrite lowerByte_ascii, IH.
Qed.

Lemma lowerASCII_lowerASCII s : lowerASCII (lowerASCII s) = lowerASCII s.
Proof.
  induction s as [|c t IH]; [reflexivity|]. cbn [lowerASCII].
  now rewrite lowerByte_lowerByte, IH.
Qed.

Lemma hasUpper_lowerASCII s : hasUpper (lowerASCII s) = false.
Proof.
  induction s as [|c t IH]; [reflexivity|]. cbn [hasUpper lowerASCII].
  now rewrite lowerByte_not_upper, IH.
Qed.

Lemma length_lowerASCII s : String.length (lowerASCII s) = String.length s.
Proof. induction s; cbn; congruence. Qed.

(** X5.  On an ASCII name the case of the letters does not count: the
    name and its lower-cased form give the same config. *)
Theorem generateHelmConfig_ignores_case name datacenter fqdn retryJoin :
  isASCII name = true ->
  generateHelmConfig (strings_ToLower name) datacenter fqdn retryJoin
  = generateHelmConfig name datacenter fqdn retryJoin.
Proof.
  intros H. rewrite !generateHelmConfig_fill, !helmConfigSites_eq.
  assert (E : strings_ToLower (strings_ToLower name) = strings_ToLower name).
  { unfold strings_ToLower. rewrite H, isASCII_lowerASCII by exact H.
    apply lowerASCII_lowerASCII. }
  now rewrite E.
Qed.

(** X6.  For an ASCII name, the text put after each [secretName] key
    has no upper-case letter, and is as long as the name. *)
Theorem secret_names_have_no_upper_case name datacenter fqdn retryJoin p :
  isASCII name = true ->
  In p (substituted key_secretName EmptyString
          (helmConfigSites name datacenter fqdn retryJoin)) ->
  hasUpper p = false /\ String.length p = String.length name.
Proof.
  intros H Hin.
  assert (E : substituted key_secretName EmptyString
                (helmConfigSites name datacenter fqdn retryJoin)
              = [strings_ToLower name; strings_ToLower name;
                 strings_ToLower name]).
  { sites_of_template. vm_compute. reflexivity. }
  rewrite E in Hin.
  destruct Hin as [<-|[<-|[<-|[]]]];
    unfold strings_ToLower; rewrite H;
    (split; [apply hasUpper_lowerASCII | apply length_lowerASCII]).
Qed.

(** ** More on the read function *)

Lemma Errorf_configFailed e :
  diag_Errorf "failed to get config for managed app: %+v" [AError e]
  = [mkDiagnostic Error (configFailed e)].
Proof. unfold configFailed. sprintf_eval. Qed.

Lemma Errorf_unmarshalFailed e :
  diag_Errorf "failed to json unmarshal Consul config %v" [AError e]
  = [mkDiagnostic Error (unmarshalFailed e)].
Proof. unfold unmarshalFailed. sprintf_eval. Qed.

Lemma Errorf_clusterLookupFailed name resourceGroup e :
  diag_Errorf
    "failed to check for presence of existing AKS Cluster (Cluster name %q) (Resource Group %q): %+v"
    [AString name; AString resourceGroup; AError e]
  = [mkDiagnostic Error (clusterLookupFailed name resourceGroup e)].
Proof. unfold clusterLookupFailed. sprintf_eval. Qed.

Lemma Errorf_clusterNotFound name resourceGroup :
  diag_Errorf
    "[ERROR] no AKS Cluster found for (Cluster name %q) (Resource Group %q)."
    [AString name; AString resourceGroup]
  = [mkDiagnostic Error (clusterNotFound name resourceGroup)].
Proof. unfold clusterNotFound. sprintf_eval. Qed.

(** The read function written out, path by path: how it ends, the
    resource data it leaves and the calls it made. *)
Lemma read_paths meta d :
  let resourceGroupName := d_Get d "resource_group_name" in
  let managedAppName := d_Get d "managed_application_name" in
  let aksResourceGroup := aksResourceGroupOf d in
  let aksClusterName := d_Get d "aks_cluster_name" in
  let getApp := CallManagedApplicationGet resourceGroupName managedAppName in
  let getCluster := CallManagedClustersGet aksResourceGroup aksClusterName in
  let failed := fun text => Return [mkDiagnostic Error text] in
  dataSourceAgentHelmConfigRead meta d
  = match ManagedApplication_Get meta resourceGroupName managedAppName with
    | (_, Some e) =>
      (failed (appLookupFailed managedAppName resourceGroupName e), d,
       [getApp])
    | (app, None) =>
      if app_StatusCode app =? 404
      then (failed (appNotFound managedAppName resourceGroupName), d,
            [getApp])
      else
        match ManagedResourceGroupID app with
        | None => (Panic, d, [getApp])
        | Some mrg =>
          match CustomResourceProvider_Config meta mrg with
          | (_, Some e) =>
            (failed (configFailed e), d, [getApp; CallConfig mrg])
          | (resp, None) =>
            match json_Unmarshal (ClientConfig resp) with
            | (_, Some e) =>
              (failed (unmarshalFailed e), d, [getApp; CallConfig mrg])
            | (consulConfig, None) =>
              match ManagedClusters_Get meta aksResourceGroup aksClusterName
              with
              | (_, Some e) =>
                (failed (clusterLookupFailed aksClusterName
                           aksResourceGroup e), d,
                 [getApp; CallConfig mrg; getCluster])
              | (mcResp, None) =>
                if mc_StatusCode mcResp =? 404
                then (failed (clusterNotFound aksClusterName
                                aksResourceGroup), d,
                      [getApp; CallConfig mrg; getCluster])
                else
                  match Fqdn mcResp with
                  | None => (Panic, d, [getApp; CallConfig mrg; getCluster])
                  | Some fqdn =>
                    let config :=
                      generateHelmConfig managedAppName
                        (Datacenter consulConfig) fqdn
                        (RetryJoin consulConfig) in
                    match ID app with
                    | None =>
                      (Panic,
                       mkResourceData (<["config" := config]> (attrs d))
                                      (Id d),
                       [getApp; CallConfig mrg; getCluster])
                    | Some id =>
                      (Return [], readDone d config id,
                       [getApp; CallConfig mrg; getCluster])
                    end
                  end
              end
            end
          end
        end
    end.
Proof.
  cbv zeta. unfold aksResourceGroupOf. run_read.
  destruct (ManagedApplication_Get meta _ _) as [app [e|]].
  { rewrite Errorf_appLookupFailed. destruct d. reflexivity. }
  destruct (app_StatusCode app =? 404).
  { rewrite Errorf_appNotFound. destruct d. reflexivity. }
  destruct (ManagedResourceGroupID app) as [mrg|];
    [|destruct d; reflexivity].
  cbn [w_d w_calls].
  destruct (CustomResourceProvider_Config meta mrg) as [resp [e|]].
  { rewrite Errorf_configFailed. destruct d. reflexivity. }
  destruct (json_Unmarshal (ClientConfig resp)) as [consulConfig [e|]].
  { rewrite Errorf_unmarshalFailed. destruct d. reflexivity. }
  cbn [w_d w_calls].
  destruct (ManagedClusters_Get meta _ _) as [mcResp [e|]].
  { rewrite Errorf_clusterLookupFailed. destruct d. reflexivity. }
  destruct (mc_StatusCode mcResp =? 404).
  { rewrite Errorf_clusterNotFound. destruct d. reflexivity. }
  destruct (Fqdn mcResp) as [fqdn|]; [|destruct d; reflexivity].
  cbn [w_d w_calls]. rewrite d_Set_config.
  destruct (ID app) as [id|]; reflexivity.
Qed.

Lemma read_looks_up_in meta d app mrg resp consulConfig :
  ManagedApplication_Get meta (d_Get d "resource_group_name")
                         (d_Get d "managed_application_name") = (app, None) ->
  app_StatusCode app <> 404 ->
  ManagedResourceGroupID app = Some mrg ->
  CustomResourceProvider_Config meta mrg = (resp, None) ->
  json_Unmarshal (ClientConfig resp) = (consulConfig, None) ->
  clusterLookedUpIn meta d app mrg consulConfig (aksResourceGroupOf d).
Proof.
  intros Hget H404 Hmrg Hcfg Hjson.
  pose proof (read_calls meta d app mrg resp consulConfig
                Hget H404 Hmrg Hcfg Hjson) as Hcalls.
  apply Z.eqb_neq in H404.
  pose proof (read_paths meta d) as P. cbv zeta in P.
  rewrite Hget, H404, Hmrg, Hcfg, Hjson in P.
  unfold clusterLookedUpIn. cbv zeta. repeat apply conj.
  - exact Hcalls.
  - intros mcResp e Hmc. rewrite Hmc in P. exact P.
  - intros mcResp Hmc Hmc404. rewrite Hmc, Hmc404 in P. exact P.
  - intros mcResp fqdn id Hmc Hmc404 Hfqdn Hid.
    apply Z.eqb_neq in Hmc404.
    rewrite Hmc, Hmc404, Hfqdn, Hid in P. exact P.
Qed.

(** C6.  After the config was fetched and parsed, the managed cluster
    is looked up in the resource group of the managed application
    lookup, [resource_group_name], when [aks_resource_group] is not set
    or is the empty string, and in [aks_resource_group] when that is set
    and not empty: it is the answer of the client for that resource
    group that decides the diagnostic or the FQDN in [config], and that
    resource group that the call and the diagnostics name. *)
Theorem read_aks_resource_group meta d app mrg resp consulConfig :
  let resourceGroupName := d_Get d "resource_group_name" in
  let managedAppName := d_Get d "managed_application_name" in
  ManagedApplication_Get meta resourceGroupName managedAppName = (app, None) ->
  app_StatusCode app <> 404 ->
  ManagedResourceGroupID app = Some mrg ->
  CustomResourceProvider_Config meta mrg = (resp, None) ->
  json_Unmarshal (ClientConfig resp) = (consulConfig, None) ->
  (attrs d !! "aks_resource_group" = None
   \/ attrs d !! "aks_resource_group" = Some EmptyString ->
   clusterLookedUpIn meta d app mrg consulConfig resourceGroupName)
  /\ (forall aksResourceGroup,
       attrs d !! "aks_resource_group" = Some aksResourceGroup ->
       aksResourceGroup <> EmptyString ->
       clusterLookedUpIn meta d app mrg consulConfig aksResourceGroup).
Proof.
  intros rg name Hget H404 Hmrg Hcfg Hjson.
  pose proof (read_looks_up_in meta d app mrg resp consulConfig
                Hget H404 Hmrg Hcfg Hjson) as L.
  unfold aksResourceGroupOf in L. fold rg in L. split.
  - intros Haks.
    assert (E : d_Get d "aks_resource_group" = EmptyString)
      by (unfold d_Get; destruct Haks as [-> | ->]; reflexivity).
    rewrite E in L. exact L.
  - intros aks Haks Hne.
    assert (E : d_Get d "aks_resource_group" = aks)
      by (unfold d_Get; rewrite Haks; reflexivity).
    rewrite E in L. apply String.eqb_neq in Hne. rewrite Hne in L. exact L.
Qed.

(** X7.  After a managed application lookup that went through: when
    the config cannot be fetched, or the fetched config does not parse,
    the read returns one diagnostic with the text of the error (as
    [%+v] prints it for the fetch, as [%v] for the parse); it has not
    looked up the managed cluster and leaves the resource data as it
    was. *)
Theorem read_config_failure meta d app mrg :
  let resourceGroupName := d_Get d "resource_group_name" in
  let managedAppName := d_Get d "managed_application_name" in
  let calls := [CallManagedApplicationGet resourceGroupName managedAppName;
                CallConfig mrg] in
  ManagedApplication_Get meta resourceGroupName managedAppName = (app, None) ->
  app_StatusCode app <> 404 ->
  ManagedResourceGroupID app = Some mrg ->
  (forall resp e,
     CustomResourceProvider_Config meta mrg = (resp, Some e) ->
     dataSourceAgentHelmConfigRead meta d
     = (Return [mkDiagnostic Error (configFailed e)], d, calls))
  /\ (forall resp consulConfig e,
        CustomResourceProvider_Config meta mrg = (resp, None) ->
        json_Unmarshal (ClientConfig resp) = (consulConfig, Some e) ->
        dataSourceAgentHelmConfigRead meta d
        = (Return [mkDiagnostic Error (unmarshalFailed e)], d, calls)).
Proof.
  intros rg name calls Hget H404 Hmrg. apply Z.eqb_neq in H404.
  pose proof (read_paths meta d) as P. cbv zeta in P. fold rg name in P.
  rewrite Hget, H404, Hmrg in P. split.
  - intros resp e Hcfg. rewrite Hcfg in P. exact P.
  - intros resp consulConfig e Hcfg Hjson. rewrite Hcfg, Hjson in P. exact P.
Qed.

(** X8.  After the config was fetched and parsed, the managed cluster
    is looked up.  When that lookup fails, or answers 404, the read
    returns one diagnostic that quotes the cluster name and the resource
    group the lookup was made in; the two texts are never the same, and
    the resource data is left as it was. *)
Theorem read_cluster_failure meta d app mrg resp consulConfig :
  let resourceGroupName := d_Get d "resource_group_name" in
  let managedAppName := d_Get d "managed_application_name" in
  let aksResourceGroup := aksResourceGroupOf d in
  let aksClusterName := d_Get d "aks_cluster_name" in
  let calls := [CallManagedApplicationGet resourceGroupName managedAppName;
                CallConfig mrg;
                CallManagedClustersGet aksResourceGroup aksClusterName] in
  ManagedApplication_Get meta resourceGroupName managedAppName = (app, None) ->
  app_StatusCode app <> 404 ->
  ManagedResourceGroupID app = Some mrg ->
  CustomResourceProvider_Config meta mrg = (resp, None) ->
  json_Unmarshal (ClientConfig resp) = (consulConfig, None) ->
  (forall mcResp e,
     ManagedClusters_Get meta aksResourceGroup aksClusterName
     = (mcResp, Some e) ->
     dataSourceAgentHelmConfigRead meta d
     = (Return [mkDiagnostic Error
                  (clusterLookupFailed aksClusterName aksResourceGroup e)],
        d, calls)
     /\ clusterLookupFailed aksClusterName aksResourceGroup e
        <> clusterNotFound aksClusterName aksResourceGroup)
  /\ (forall mcResp,
        ManagedClusters_Get meta aksResourceGroup aksClusterName
        = (mcResp, None) ->
        mc_StatusCode mcResp = 404 ->
        dataSourceAgentHelmConfigRead meta d
        = (Return [mkDiagnostic Error
                     (clusterNotFound aksClusterName aksResourceGroup)],
           d, calls)).
Proof.
  intros rg name aks cluster calls Hget H404 Hmrg Hcfg Hjson.
  apply Z.eqb_neq in H404.
  pose proof (read_paths meta d) as P. cbv zeta in P.
  fold rg name aks cluster in P.
  rewrite Hget, H404, Hmrg, Hcfg, Hjson in P. split.
  - intros mcResp e Hmc. rewrite Hmc in P. split; [exact P|].
    unfold clusterLookupFailed, clusterNotFound. simpl. discriminate.
  - intros mcResp Hmc Hmc404. rewrite Hmc, Hmc404 in P. exact P.
Qed.

(** X9.  When the read ends without a diagnostic, and only then, every
    step went through: both lookups answered without error and other
    than 404, the config was fetched and parsed, and the three pointers
    were there.  Then [config] holds the rendering of the managed
    application name, the parsed datacenter, the FQDN of the cluster and
    the parsed join addresses; the identifier is set; and the three
    calls were made in their order. *)
Theorem read_succeeds_iff meta d d' calls :
  let resourceGroupName := d_Get d "resource_group_name" in
  let managedAppName := d_Get d "managed_application_name" in
  let aksResourceGroup := aksResourceGroupOf d in
  let aksClusterName := d_Get d "aks_cluster_name" in
  dataSourceAgentHelmConfigRead meta d = (Return [], d', calls)
  <-> exists app mrg resp consulConfig mcResp fqdn id,
      ManagedApplication_Get meta resourceGroupName managedAppName
      = (app, None)
      /\ app_StatusCode app <> 404
      /\ ManagedResourceGroupID app = Some mrg
      /\ CustomResourceProvider_Config meta mrg = (resp, None)
      /\ json_Unmarshal (ClientConfig resp) = (consulConfig, None)
      /\ ManagedClusters_Get meta aksResourceGroup aksClusterName
         = (mcResp, None)
      /\ mc_StatusCode mcResp <> 404
      /\ Fqdn mcResp = Some fqdn
      /\ ID app = Some id
      /\ d' = readDone d
                (generateHelmConfig managedAppName (Datacenter consulConfig)
                                    fqdn (RetryJoin consulConfig)) id
      /\ calls = [CallManagedApplicationGet resourceGroupName managedAppName;
                  CallConfig mrg;
                  CallManagedClustersGet aksResourceGroup aksClusterName].
Proof.
  intros rg name aks cluster.
  pose proof (read_paths meta d) as P. cbv zeta in P.
  fold rg name aks cluster in P. rewrite P. clear P. split.
  - destruct (ManagedApplication_Get meta rg name) as [app [e|]] eqn:Hget;
      [inversion 1|].
    destruct (app_StatusCode app =? 404) eqn:E404; [inversion 1|].
    destruct (ManagedResourceGroupID app) as [mrg|] eqn:Hmrg; [|inversion 1].
    destruct (CustomResourceProvider_Config meta mrg) as [resp [e|]] eqn:Hcfg;
      [inversion 1|].
    destruct (json_Unmarshal (ClientConfig resp)) as [consulConfig [e|]]
      eqn:Hjson; [inversion 1|].
    destruct (ManagedClusters_Get meta aks cluster) as [mcResp [e|]] eqn:Hmc;
      [inversion 1|].
    destruct (mc_StatusCode mcResp =? 404) eqn:Emc; [inversion 1|].
    destruct (Fqdn mcResp) as [fqdn|] eqn:Hfqdn; [|inversion 1].
    destruct (ID app) as [id|] eqn:Hid; [|inversion 1].
    intros H. inversion H. subst d' calls.
    apply Z.eqb_neq in E404, Emc.
    exists app, mrg, resp, consulConfig, mcResp, fqdn, id.
    repeat apply conj; first [assumption | reflexivity].
  - intros (app & mrg & resp & consulConfig & mcResp & fqdn & id
            & Hget & H404 & Hmrg & Hcfg & Hjson & Hmc & Hmc404
            & Hfqdn & Hid & -> & ->).
    apply Z.eqb_neq in H404, Hmc404.
    rewrite Hget, H404, Hmrg, Hcfg, Hjson, Hmc, Hmc404, Hfqdn, Hid.
    reflexivity.
Qed.

(** X10.  A read that returns a diagnostic returns exactly one, an
    error, and leaves the resource data as it was: no [config] and no
    identifier is set on a failure. *)
Theorem read_failure_sets_nothing meta d ds d' calls :
  dataSourceAgentHelmConfigRead meta d = (Return ds, d', calls) ->
  ds <> [] ->
  d' = d /\ exists text, ds = [mkDiagnostic Error text].
Proof.
  pose proof (read_paths meta d) as P. cbv zeta in P. rewrite P. clear P.
  intros H Hne. revert H.
  repeat match goal with
         | |- context [match ?x with _ => _ end] =>
           destruct x as [? [?|]] || destruct x
         end;
    intros H; inversion H; subst; try (split; [reflexivity|eauto]).
  congruence.
Qed.

(** X11.  However the read ends, the attributes other than [config]
    are what they were. *)
Theorem read_keeps_inputs meta d key :
  key <> "config" ->
  attrs (snd (fst (dataSourceAgentHelmConfigRead meta d))) !! key
  = attrs d !! key.
Proof.
  intros Hkey.
  pose proof (read_paths meta d) as P. cbv zeta in P. rewrite P. clear P.
  repeat match goal with
         | |- context [match ?x with _ => _ end] =>
           destruct x as [? [?|]] || destruct x
         end;
    cbn [fst snd attrs readDone]; try reflexivity;
    apply lookup_insert_ne; congruence.
Qed.

(** X12.  The calls of a read, whatever their answers: the managed
    application lookup alone; or, when that gave a managed resource
    group, the config fetch for it after the lookup; or these two and
    then the managed cluster lookup.  There are never more, and never
    one without the ones before it.  And these are the only places
    where the read consults the client: a client with the same answers
    for the resource group and name of the managed application, for the
    managed resource group of that answer and for the resource group
    and name of the cluster gives the same read. *)
Theorem read_calls_in_order meta d :
  let resourceGroupName := d_Get d "resource_group_name" in
  let managedAppName := d_Get d "managed_application_name" in
  let aksResourceGroup := aksResourceGroupOf d in
  let aksClusterName := d_Get d "aks_cluster_name" in
  let getApp := CallManagedApplicationGet resourceGroupName managedAppName in
  let getCluster := CallManagedClustersGet aksResourceGroup aksClusterName in
  let calls := snd (dataSourceAgentHelmConfigRead meta d) in
  (calls = [getApp]
   \/ exists mrg,
       ManagedResourceGroupID
         (fst (ManagedApplication_Get meta resourceGroupName managedAppName))
       = Some mrg
       /\ (calls = [getApp; CallConfig mrg]
           \/ calls = [getApp; CallConfig mrg; getCluster]))
  /\ forall meta',
      ManagedApplication_Get meta' resourceGroupName managedAppName
      = ManagedApplication_Get meta resourceGroupName managedAppName ->
      (forall mrg,
         ManagedResourceGroupID
           (fst (ManagedApplication_Get meta resourceGroupName
                                        managedAppName)) = Some mrg ->
         CustomResourceProvider_Config meta' mrg
         = CustomResourceProvider_Config meta mrg) ->
      ManagedClusters_Get meta' aksResourceGroup aksClusterName
      = ManagedClusters_Get meta aksResourceGroup aksClusterName ->
      dataSourceAgentHelmConfigRead meta' d
      = dataSourceAgentHelmConfigRead meta d.
Proof.
  intros rg name aks cluster getApp getCluster calls. subst calls. split.
  - pose proof (read_paths meta d) as P. cbv zeta in P.
    fold rg name aks cluster getApp getCluster in P. rewrite P. clear P.
    destruct (ManagedApplication_Get meta rg name) as [app [e|]];
      [left; reflexivity|].
    destruct (app_StatusCode app =? 404); [left; reflexivity|].
    cbn [fst].
    destruct (ManagedResourceGroupID app) as [mrg|]; [|left; reflexivity].
    right. exists mrg. split; [reflexivity|].
    repeat match goal with
           | |- context [match ?x with _ => _ end] =>
             destruct x as [? [?|]] || destruct x
           end; cbn [snd]; auto.
  - intros meta' Happ Hcfg Hmc.
    pose proof (read_paths meta d) as P. cbv zeta in P.
    pose proof (read_paths meta' d) as P'. cbv zeta in P'.
    fold rg name aks cluster in P, P'. rewrite P, P', Happ, Hmc.
    destruct (ManagedApplication_Get meta rg name) as [app [e|]];
      [reflexivity|].
    cbn [fst] in Hcfg.
    destruct (app_StatusCode app =? 404); [reflexivity|].
    destruct (ManagedResourceGroupID app) as [mrg|]; [|reflexivity].
    rewrite (Hcfg mrg eq_refl). reflexivity.
Qed.

Lemma d_Get_readDone d config id key :
  key <> "config" -> d_Get (readDone d config id) key = d_Get d key.
Proof.
  intros H. unfold d_Get, readDone. cbn [attrs].
  rewrite lookup_insert_ne by congruence. reflexivity.
Qed.

(** X13.  Reading again changes nothing: on the resource data a read
    without diagnostic has left, the read ends the same way, with the
    same calls, and leaves the same resource data. *)
Theorem read_idempotent meta d d' calls :
  dataSourceAgentHelmConfigRead meta d = (Return [], d', calls) ->
  dataSourceAgentHelmConfigRead meta d' = (Return [], d', calls).
Proof.
  pose proof (read_paths meta d) as P. cbv zeta in P. rewrite P. clear P.
  intros H.
  assert (exists config id, d' = readDone d config id) as (config & id & E).
  { revert H.
    repeat match goal with
           | |- context [match ?x with _ => _ end] =>
             destruct x as [? [?|]] || destruct x
           end; intros H; inversion H; eauto. }
  pose proof (read_paths meta d') as P. cbv zeta in P. rewrite P. clear P.
  assert (Ha : aksResourceGroupOf d' = aksResourceGroupOf d)
    by (unfold aksResourceGroupOf; subst d';
        rewrite !d_Get_readDone by discriminate; reflexivity).
  rewrite Ha. subst d'. rewrite !d_Get_readDone by discriminate.
  revert H.
  repeat match goal with
         | |- context [match ?x with _ => _ end] =>
           destruct x as [? [?|]] || destruct x
         end; intros H; inversion H.
  unfold readDone. cbn [attrs Id].
  rewrite insert_insert_eq, H1, H2. reflexivity.
Qed.

End HelmConfig.

(** ** Concrete runs

    A stand-in for each parameter: tables that know no rune above
    Latin-1, a decoder that knows one document, and three clients. *)

Definition latin1_isPrint : Z -> bool := fun _ => false.
Definition ascii_LowerCase : Z -> Z := fun r => r.
Definition unused_Sprintf : string -> list arg -> string :=
  fun _ _ => EmptyString.

Definition quoted (s : string) : string := String dquote (s +:+ str1 dquote).

(** The document with the datacenter dc1 and the one join address
    1.2.3.4. *)
Definition sample_json : string :=
  "{" +:+ quoted "datacenter" +:+ ":" +:+ quoted "dc1" +:+ ","
  +:+ quoted "retry_join" +:+ ":[" +:+ quoted "1.2.3.4" +:+ "]}".

Definition sample_Unmarshal (data : string) : ConsulConfig * option error :=
  if String.eqb data sample_json
  then (mkConsulConfig "dc1" ["1.2.3.4"], None)
  else (mkConsulConfig EmptyString [],
        Some (mkError "unexpected end of JSON input"
                      "unexpected end of JSON input")).

Definition sample_Set_error (key : string) : error :=
  mkError ("Invalid address to set: " +:+ key)
          ("Invalid address to set: " +:+ key).

Definition sample_app : Application :=
  mkApplication 200 (Some "/subscriptions/s/resourceGroups/mrg-MyApp")
    (Some "/subscriptions/s/resourceGroups/rg1/providers/Microsoft.Solutions/applications/MyApp").

Definition sample_cluster : ManagedCluster :=
  mkManagedCluster 200 (Some "cluster.example.com").

Definition sample_client (app : Application) (mc : ManagedCluster) : Client :=
  mkClient (fun _ _ => (app, None))
           (fun _ => (mkConfigResponse sample_json, None))
           (fun _ _ => (mc, None)).

Definition failing_client (e : error) : Client :=
  mkClient (fun _ _ => (mkApplication 500 None None, Some e))
           (fun _ => (mkConfigResponse sample_json, None))
           (fun _ _ => (sample_cluster, None)).

Definition sample_d : ResourceData :=
  mkResourceData
    (list_to_map [("resource_group_name", "rg1");
                  ("managed_application_name", "MyApp");
                  ("aks_cluster_name", "aks1")])
    EmptyString.

Definition sample_d_aks : ResourceData :=
  mkResourceData (<["aks_resource_group" := "rg-aks"]> (attrs sample_d))
                 EmptyString.

Definition sample_read (meta : Client) (d : ResourceData)
  : exit * ResourceData * list Call :=
  dataSourceAgentHelmConfigRead latin1_isPrint ascii_LowerCase unused_Sprintf
    sample_Unmarshal sample_Set_error meta d.

Example sample_read_config :
  attrs (snd (fst (sample_read (sample_client sample_app sample_cluster)
                               sample_d))) !! "config"
  = Some (generateHelmConfig latin1_isPrint ascii_LowerCase unused_Sprintf
            "MyApp" "dc1" "cluster.example.com" ["1.2.3.4"]).
Proof. vm_compute. reflexivity. Qed.

(** C1, the claim as it is written: the token for 10.0.0.1 and 10.0.0.2
    is not the comma-separated ['10.0.0.1', '10.0.0.2'], and the
    rendered text does not contain that either. *)
Lemma quotedRetryJoin_has_no_comma :
  quotedRetryJoin latin1_isPrint unused_Sprintf ["10.0.0.1"; "10.0.0.2"]
  <> "['10.0.0.1', '10.0.0.2']"
  /\ strings_Contains
       (generateHelmConfig latin1_isPrint ascii_LowerCase unused_Sprintf
          "MyApp" "dc1" "cluster.example.com" ["10.0.0.1"; "10.0.0.2"])
       "['10.0.0.1', '10.0.0.2']" = false.
Proof. split; [vm_compute; discriminate | vm_compute; reflexivity]. Qed.

(** A lookup that answers 404: the read returns the not-found
    diagnostic; a lookup that fails: the other one. *)
Lemma read_app_not_found_witness :
  sample_read (sample_client (mkApplication 404 None None) sample_cluster)
              sample_d
  = (Return [mkDiagnostic Error (appNotFound latin1_isPrint "MyApp" "rg1")],
     sample_d, [CallManagedApplicationGet "rg1" "MyApp"])
  /\ sample_read (failing_client (mkError "timeout" "timeout")) sample_d
     = (Return [mkDiagnostic Error
                  (appLookupFailed latin1_isPrint "MyApp" "rg1"
                                   (mkError "timeout" "timeout"))],
        sample_d, [CallManagedApplicationGet "rg1" "MyApp"]).
Proof.
  pose proof (read_app_not_found latin1_isPrint ascii_LowerCase
                unused_Sprintf sample_Unmarshal sample_Set_error
                (sample_client (mkApplication 404 None None) sample_cluster)
                sample_d (mkApplication 404 None None)
                eq_refl eq_refl) as [H404 Herr].
  split; [exact H404|].
  exact (proj1 (Herr (failing_client (mkError "timeout" "timeout"))
                     (mkApplication 500 None None)
                     (mkError "timeout" "timeout") eq_refl)).
Defined.

(** A read that goes through: the identifier is the one of the managed
    application with the suffix. *)
Lemma read_success_sets_id_witness :
  exists app id,
    ManagedApplication_Get (sample_client sample_app sample_cluster)
                           "rg1" "MyApp" = (app, None)
    /\ ID app = Some id
    /\ Id (snd (fst (sample_read (sample_client sample_app sample_cluster)
                                 sample_d)))
       = id +:+ "/agent-helm-config".
Proof.
  apply (read_success_sets_id latin1_isPrint ascii_LowerCase unused_Sprintf
           sample_Unmarshal sample_Set_error
           (sample_client sample_app sample_cluster) sample_d
           (snd (fst (sample_read (sample_client sample_app sample_cluster)
                                  sample_d)))
           (snd (sample_read (sample_client sample_app sample_cluster)
                             sample_d))).
  vm_compute. reflexivity.
Defined.

(** A client that answers with another FQDN for the resource group
    rg-aks than for the other resource groups. *)
Definition grouped_client : Client :=
  mkClient (fun _ _ => (sample_app, None))
           (fun _ => (mkConfigResponse sample_json, None))
           (fun resourceGroup _ =>
              if String.eqb resourceGroup "rg-aks"
              then (mkManagedCluster 200 (Some "aks.example.com"), None)
              else (mkManagedCluster 200 (Some "rg1.example.com"), None)).

(** Without [aks_resource_group] the cluster is looked up in rg1, and
    [config] has the FQDN the client gives for rg1; with
    [aks_resource_group] set to rg-aks, the one it gives for rg-aks. *)
Lemma read_aks_resource_group_witness :
  sample_read grouped_client sample_d
  = (Return [],
     readDone sample_d
       (generateHelmConfig latin1_isPrint ascii_LowerCase unused_Sprintf
          "MyApp" "dc1" "rg1.example.com" ["1.2.3.4"])
       "/subscriptions/s/resourceGroups/rg1/providers/Microsoft.Solutions/applications/MyApp",
     [CallManagedApplicationGet "rg1" "MyApp";
      CallConfig "/subscriptions/s/resourceGroups/mrg-MyApp";
      CallManagedClustersGet "rg1" "aks1"])
  /\ sample_read grouped_client sample_d_aks
     = (Return [],
        readDone sample_d_aks
          (generateHelmConfig latin1_isPrint ascii_LowerCase unused_Sprintf
             "MyApp" "dc1" "aks.example.com" ["1.2.3.4"])
          "/subscriptions/s/resourceGroups/rg1/providers/Microsoft.Solutions/applications/MyApp",
        [CallManagedApplicationGet "rg1" "MyApp";
         CallConfig "/subscriptions/s/resourceGroups/mrg-MyApp";
         CallManagedClustersGet "rg-aks" "aks1"]).
Proof.
  assert (N200 : 200 <> 404) by discriminate.
  split.
  - pose proof (proj1 (read_aks_resource_group latin1_isPrint ascii_LowerCase
                         unused_Sprintf sample_Unmarshal sample_Set_error
                         grouped_client sample_d sample_app
                         "/subscriptions/s/resourceGroups/mrg-MyApp"
                         (mkConfigResponse sample_json)
                         (mkConsulConfig "dc1" ["1.2.3.4"])
                         eq_refl N200 eq_refl eq_refl eq_refl)
                      (or_introl eq_refl)) as (_ & _ & _ & H).
    exact (H (mkManagedCluster 200 (Some "rg1.example.com"))
             "rg1.example.com" _ eq_refl N200 eq_refl eq_refl).
  - pose proof (proj2 (read_aks_resource_group latin1_isPrint ascii_LowerCase
                         unused_Sprintf sample_Unmarshal sample_Set_error
                         grouped_client sample_d_aks sample_app
                         "/subscriptions/s/resourceGroups/mrg-MyApp"
                         (mkConfigResponse sample_json)
                         (mkConsulConfig "dc1" ["1.2.3.4"])
                         eq_refl N200 eq_refl eq_refl eq_refl)
                      "rg-aks" eq_refl ltac:(discriminate))
      as (_ & _ & _ & H).
    exact (H (mkManagedCluster 200 (Some "aks.example.com"))
             "aks.example.com" _ eq_refl N200 eq_refl eq_refl).
Defined.


(** ** More concrete runs *)

(** X14.  Storing [config] cannot fail: [config] is an attribute of the
    schema, so the read is the same whatever error the field writer
    has for an attribute that is not; the read never returns the
    diagnostic made from the error of [d.Set]. *)
Theorem read_set_never_fails isPrint_table unicode_To_LowerCase
  fmt_Sprintf_other json_Unmarshal schema_Set_error1 schema_Set_error2
  meta d :
  dataSourceAgentHelmConfigRead isPrint_table unicode_To_LowerCase
    fmt_Sprintf_other json_Unmarshal schema_Set_error1 meta d
  = dataSourceAgentHelmConfigRead isPrint_table unicode_To_LowerCase
      fmt_Sprintf_other json_Unmarshal schema_Set_error2 meta d.
Proof. rewrite !read_paths. reflexivity. Qed.

Definition timeout_error : error := mkError "timeout" "timeout: stack".

(** A client whose config fetch fails, one whose config is no JSON, and
    one whose managed cluster lookup fails. *)
Definition config_failing_client : Client :=
  mkClient (fun _ _ => (sample_app, None))
           (fun _ => (mkConfigResponse EmptyString, Some timeout_error))
           (fun _ _ => (sample_cluster, None)).

Definition bad_json_client : Client :=
  mkClient (fun _ _ => (sample_app, None))
           (fun _ => (mkConfigResponse "{", None))
           (fun _ _ => (sample_cluster, None)).

Definition cluster_failing_client : Client :=
  mkClient (fun _ _ => (sample_app, None))
           (fun _ => (mkConfigResponse sample_json, None))
           (fun _ _ => (mkManagedCluster 500 None, Some timeout_error)).

Definition sample_mrg : string := "/subscriptions/s/resourceGroups/mrg-MyApp".

Lemma quotedRetryJoin_plain_witness :
  quotedRetryJoin latin1_isPrint unused_Sprintf ["10.0.0.1"; "10.0.0.2"]
  = "[" +:+ join " " (map (wrap squote) ["10.0.0.1"; "10.0.0.2"]) +:+ "]".
Proof.
  exact (quotedRetryJoin_plain latin1_isPrint unused_Sprintf
           ["10.0.0.1"; "10.0.0.2"] eq_refl).
Defined.

Lemma quotedRetryJoin_ambiguous_witness :
  quotedRetryJoin latin1_isPrint unused_Sprintf ["10.0.0.1' '10.0.0.2"]
  = quotedRetryJoin latin1_isPrint unused_Sprintf ["10.0.0.1"; "10.0.0.2"].
Proof.
  exact (proj1 (quotedRetryJoin_ambiguous latin1_isPrint ascii_LowerCase
                  unused_Sprintf "MyApp" "dc1" "cluster.example.com"
                  "10.0.0.1" "10.0.0.2" eq_refl eq_refl)).
Defined.

Lemma generateHelmConfig_ignores_case_witness :
  generateHelmConfig latin1_isPrint ascii_LowerCase unused_Sprintf
    (strings_ToLower ascii_LowerCase "MyApp") "dc1" "cluster.example.com"
    ["1.2.3.4"]
  = generateHelmConfig latin1_isPrint ascii_LowerCase unused_Sprintf
      "MyApp" "dc1" "cluster.example.com" ["1.2.3.4"].
Proof.
  exact (generateHelmConfig_ignores_case latin1_isPrint ascii_LowerCase
           unused_Sprintf "MyApp" "dc1" "cluster.example.com" ["1.2.3.4"]
           eq_refl).
Defined.

Lemma secret_names_have_no_upper_case_witness :
  hasUpper "myapp" = false /\ String.length "myapp" = String.length "MyApp".
Proof.
  refine (secret_names_have_no_upper_case latin1_isPrint ascii_LowerCase
            unused_Sprintf "MyApp" "dc1" "cluster.example.com" ["1.2.3.4"]
            "myapp" eq_refl _).
  vm_compute. left. reflexivity.
Defined.

Lemma read_config_failure_witness :
  sample_read config_failing_client sample_d
  = (Return [mkDiagnostic Error (configFailed timeout_error)], sample_d,
     [CallManagedApplicationGet "rg1" "MyApp"; CallConfig sample_mrg])
  /\ sample_read bad_json_client sample_d
     = (Return [mkDiagnostic Error
                  (unmarshalFailed
                     (mkError "unexpected end of JSON input"
                              "unexpected end of JSON input"))],
        sample_d,
        [CallManagedApplicationGet "rg1" "MyApp"; CallConfig sample_mrg]).
Proof.
  assert (N200 : 200 <> 404) by discriminate.
  split.
  - exact (proj1 (read_config_failure latin1_isPrint ascii_LowerCase
                    unused_Sprintf sample_Unmarshal sample_Set_error
                    config_failing_client sample_d sample_app sample_mrg
                    eq_refl N200 eq_refl)
                 (mkConfigResponse EmptyString) timeout_error eq_refl).
  - exact (proj2 (read_config_failure latin1_isPrint ascii_LowerCase
                    unused_Sprintf sample_Unmarshal sample_Set_error
                    bad_json_client sample_d sample_app sample_mrg
                    eq_refl N200 eq_refl)
                 (mkConfigResponse "{") (mkConsulConfig EmptyString [])
                 (mkError "unexpected end of JSON input"
                          "unexpected end of JSON input")
                 eq_refl eq_refl).
Defined.

Lemma read_cluster_failure_witness :
  sample_read cluster_failing_client sample_d_aks
  = (Return [mkDiagnostic Error
               (clusterLookupFailed latin1_isPrint "aks1" "rg-aks"
                                    timeout_error)],
     sample_d_aks,
     [CallManagedApplicationGet "rg1" "MyApp"; CallConfig sample_mrg;
      CallManagedClustersGet "rg-aks" "aks1"])
  /\ sample_read (sample_client sample_app (mkManagedCluster 404 None))
                 sample_d_aks
     = (Return [mkDiagnostic Error
                  (clusterNotFound latin1_isPrint "aks1" "rg-aks")],
        sample_d_aks,
        [CallManagedApplicationGet "rg1" "MyApp"; CallConfig sample_mrg;
         CallManagedClustersGet "rg-aks" "aks1"]).
Proof.
  assert (N200 : 200 <> 404) by discriminate.
  split.
  - exact (proj1 (proj1 (read_cluster_failure latin1_isPrint ascii_LowerCase
                    unused_Sprintf sample_Unmarshal sample_Set_error
                    cluster_failing_client sample_d_aks sample_app sample_mrg
                    (mkConfigResponse sample_json)
                    (mkConsulConfig "dc1" ["1.2.3.4"])
                    eq_refl N200 eq_refl eq_refl eq_refl)
                 (mkManagedCluster 500 None) timeout_error eq_refl)).
  - exact (proj2 (read_cluster_failure latin1_isPrint ascii_LowerCase
                    unused_Sprintf sample_Unmarshal sample_Set_error
                    (sample_client sample_app (mkManagedCluster 404 None))
                    sample_d_aks sample_app sample_mrg
                    (mkConfigResponse sample_json)
                    (mkConsulConfig "dc1" ["1.2.3.4"])
                    eq_refl N200 eq_refl eq_refl eq_refl)
                 (mkManagedCluster 404 None) eq_refl eq_refl).
Defined.

Lemma read_failure_sets_nothing_witness :
  snd (fst (sample_read bad_json_client sample_d)) = sample_d
  /\ exists text,
      [mkDiagnostic Error
         (unmarshalFailed (mkError "unexpected end of JSON input"
                                   "unexpected end of JSON input"))]
      = [mkDiagnostic Error text].
Proof.
  refine (read_failure_sets_nothing latin1_isPrint ascii_LowerCase
            unused_Sprintf sample_Unmarshal sample_Set_error
            bad_json_client sample_d _ _ _ _ _).
  - vm_compute. reflexivity.
  - discriminate.
Defined.

Lemma read_keeps_inputs_witness :
  attrs (snd (fst (sample_read (sample_client sample_app sample_cluster)
                               sample_d))) !! "aks_cluster_name"
  = Some "aks1".
Proof.
  refine (eq_trans
            (read_keeps_inputs latin1_isPrint ascii_LowerCase unused_Sprintf
               sample_Unmarshal sample_Set_error
               (sample_client sample_app sample_cluster) sample_d
               "aks_cluster_name" _) _).
  - discriminate.
  - vm_compute. reflexivity.
Defined.

Lemma read_idempotent_witness :
  sample_read (sample_client sample_app sample_cluster)
    (snd (fst (sample_read (sample_client sample_app sample_cluster)
                           sample_d)))
  = sample_read (sample_client sample_app sample_cluster) sample_d.
Proof.
  refine (eq_trans
            (read_idempotent latin1_isPrint ascii_LowerCase unused_Sprintf
               sample_Unmarshal sample_Set_error
               (sample_client sample_app sample_cluster) sample_d
               (snd (fst (sample_read
                            (sample_client sample_app sample_cluster)
                            sample_d)))
               (snd (sample_read (sample_client sample_app sample_cluster)
                                 sample_d)) _) _);
    vm_compute; reflexivity.
Defined.




(** A client that fails where [grouped_client] answers for the other
    resource groups: with [aks_resource_group] set to rg-aks the read
    is the same. *)
Definition grouped_client_failing_elsewhere : Client :=
  mkClient (fun _ _ => (sample_app, None))
           (fun _ => (mkConfigResponse sample_json, None))
           (fun resourceGroup _ =>
              if String.eqb resourceGroup "rg-aks"
              then (mkManagedCluster 200 (Some "aks.example.com"), None)
              else (mkManagedCluster 500 None, Some timeout_error)).

Lemma read_calls_in_order_witness :
  sample_read grouped_client_failing_elsewhere sample_d_aks
  = sample_read grouped_client sample_d_aks.
Proof.
  refine (proj2 (read_calls_in_order latin1_isPrint ascii_LowerCase
                   unused_Sprintf sample_Unmarshal sample_Set_error
                   grouped_client sample_d_aks)
                grouped_client_failing_elsewhere eq_refl _ eq_refl).
  intros mrg _. reflexivity.
Defined.
